(** * remote-cloudflare-kv: the validation and translation layer of
    [src/index.ts], embedded as Rocq functions.

    The client turns five typed operations (get, getWithMetadata, put,
    delete, list) into HTTP requests.  Every operation validates its
    arguments, performs its requests through [fetch] and decodes the reply.

    - JavaScript strings are sequences of UTF-16 code units.
    - JavaScript numbers are [NaN], the two infinities, or a finite rational
      (every finite double is one; the sign of zero is never observed by
      this code).
    - An [async] method is a function from the trace of requests sent so far
      to a completion (a value or a thrown exception) and the new trace.
    - Built-ins of the host that the code only calls (the transport,
      [JSON.stringify], [String.prototype.replace], the clock, the coercion
      of non-numeric operands of [<]) are fields of a [Host] record. *)

From Stdlib Require Import ZArith NArith QArith Qround Qreduction Qcanon List String Ascii Bool Lia.
From Stdlib Require Import Decimal DecimalString DecimalPos DecimalZ.
From stdpp Require Import gmap.
Import ListNotations.

Local Open Scope Z_scope.

(* ===================================================================== *)
(** ** JavaScript strings *)
(* ===================================================================== *)

(** A string is its list of UTF-16 code units; [.length] is [length]. *)
Abbreviation JsString := (list N).

(** The code units of an ASCII literal of the source. *)
Definition js (s : string) : JsString :=
  List.map N_of_ascii (list_ascii_of_string s).

(** [a === b] on strings. *)
Definition str_eqb (a b : JsString) : bool := bool_decide (a = b).

Definition isHighSurrogate (c : N) : bool := ((0xD800 <=? c) && (c <=? 0xDBFF))%N.
Definition isLowSurrogate (c : N) : bool := ((0xDC00 <=? c) && (c <=? 0xDFFF))%N.

(** [textEncoder.encode(s).byteLength]: the string is read as code points
    (a high surrogate followed by a low one is one supplementary code point,
    a lone surrogate becomes U+FFFD) and each is encoded in UTF-8. *)
Fixpoint utf8_byteLength (s : JsString) : Z :=
  match s with
  | [] => 0
  | c :: rest =>
      if (c <? 0x80)%N then 1 + utf8_byteLength rest
      else if (c <? 0x800)%N then 2 + utf8_byteLength rest
      else if isHighSurrogate c then
        match rest with
        | d :: rest' =>
            if isLowSurrogate d then 4 + utf8_byteLength rest'
            else 3 + utf8_byteLength rest
        | [] => 3
        end
      else 3 + utf8_byteLength rest
  end.

(* ===================================================================== *)
(** ** JavaScript numbers *)
(* ===================================================================== *)

Inductive Number : Type :=
| NaN
| Infinity (negative : bool)
| Finite (q : Q).

Definition num (z : Z) : Number := Finite (inject_Z z).

Definition Qlt_bool (x y : Q) : bool := negb (Qle_bool y x).

(** [a < b] on numbers: false as soon as an operand is [NaN]. *)
Definition num_lt (a b : Number) : bool :=
  match a, b with
  | NaN, _ | _, NaN => false
  | Finite x, Finite y => Qlt_bool x y
  | Infinity true, Infinity true => false
  | Infinity true, _ => true
  | _, Infinity true => false
  | Infinity false, _ => false
  | Finite _, Infinity false => true
  end.

(** [a > b] is [b < a]; [a <= b] is false on [NaN] and otherwise [!(b < a)]. *)
Definition num_gt (a b : Number) : bool := num_lt b a.

Definition num_le (a b : Number) : bool :=
  match a, b with
  | NaN, _ | _, NaN => false
  | _, _ => negb (num_lt b a)
  end.

(** [a + b], exact on finite operands (as doubles are below 2^53). *)
Definition num_add (a b : Number) : Number :=
  match a, b with
  | NaN, _ | _, NaN => NaN
  | Finite x, Finite y => Finite (Qred (x + y))
  | Infinity s, Finite _ | Finite _, Infinity s => Infinity s
  | Infinity s, Infinity t => if Bool.eqb s t then Infinity s else NaN
  end.

(** [a / b] for a finite [a] and a non-zero integer literal [b]; the result
    is the exact quotient. *)
Definition num_div_int (a : Number) (b : Z) : Number :=
  match a with
  | Finite x => Finite (Qred (x / inject_Z b))
  | other => other
  end.

(** [Number.isNaN]. *)
Definition Number_isNaN (a : Number) : bool :=
  match a with NaN => true | _ => false end.

(** Truthiness of a number: every number but [NaN] and zero. *)
Definition num_truthy (a : Number) : bool :=
  match a with
  | NaN => false
  | Infinity _ => true
  | Finite q => negb (Qeq_bool q 0)
  end.

(** [Math.round]: the nearest integer, ties towards +infinity. *)
Definition Math_round (a : Number) : Number :=
  match a with
  | Finite q => num (Qfloor (q + (1 # 2)))
  | other => other
  end.

(** *** [parseInt(s, 10)] *)

(** WhiteSpace and LineTerminator code units, skipped at the start. *)
Definition isStrWhiteSpace (c : N) : bool :=
  ((9 <=? c) && (c <=? 13) || (c =? 32) || (c =? 0xA0) || (c =? 0x1680)
   || (0x2000 <=? c) && (c <=? 0x200A) || (c =? 0x2028) || (c =? 0x2029)
   || (c =? 0x202F) || (c =? 0x205F) || (c =? 0x3000) || (c =? 0xFEFF))%N.

Fixpoint trimStart (s : JsString) : JsString :=
  match s with
  | c :: rest => if isStrWhiteSpace c then trimStart rest else s
  | [] => []
  end.

Definition digitValue (c : N) : option Z :=
  if ((48 <=? c) && (c <=? 57))%N then Some (Z.of_N c - 48) else None.

(** The value of the longest prefix of decimal digits, [None] when the
    prefix is empty. *)
Fixpoint digitsPrefix (s : JsString) (acc : option Z) : option Z :=
  match s with
  | c :: rest =>
      match digitValue c with
      | Some d =>
          digitsPrefix rest
            (Some (match acc with Some a => 10 * a + d | None => d end))
      | None => acc
      end
  | [] => acc
  end.

(** The Number value of an integer: the integer itself up to 2^53 in
    magnitude, beyond that the nearest double (53 significant bits, ties to
    the even mantissa), and an infinity from 2^1024 on. *)
Definition toDouble (z : Z) : Number :=
  let a := Z.abs z in
  if a <=? 2 ^ 53 then num z
  else
    let e := Z.log2 a - 52 in
    let q := Z.shiftr a e in
    let r := a - Z.shiftl q e in
    let half := Z.shiftl 1 (e - 1) in
    let q' := if (half <? r) || ((r =? half) && Z.odd q) then q + 1 else q in
    let m := Z.shiftl q' e in
    if m <? 2 ^ 1024 then num (Z.sgn z * m) else Infinity (z <? 0).
Arguments toDouble : simpl never.

(** Leading white space is skipped, then an optional sign is read, then
    the longest run of decimal digits; no digit gives [NaN].  The result is
    the Number value of the integer read: a double, so rounded beyond
    2^53.  (Past 20 significant digits the language lets an engine drop
    digits; the correctly rounded value is taken here.) *)
Definition parseInt10 (s : JsString) : Number :=
  let s1 := trimStart s in
  let '(sign, s2) :=
    match s1 with
    | 45%N :: rest => (-1, rest)
    | 43%N :: rest => (1, rest)
    | _ => (1, s1)
    end in
  match digitsPrefix s2 None with
  | Some v => toDouble (sign * v)
  | None => NaN
  end.

(* ===================================================================== *)
(** ** JavaScript values *)
(* ===================================================================== *)

#[warnings="-register-all"]
Inductive JsValue : Type :=
| VUndefined
| VNull
| VBoolean (b : bool)
| VNumber (n : Number)
| VString (s : JsString)
| VBigInt (z : Z)
| VSymbol (description : JsString)
| VFunction (name : JsString)
| VArray (items : list JsValue)
| VObject (props : list (JsString * JsValue))
| VArrayBuffer (bytes : list N)
| VArrayBufferView (bytes : list N)
| VReadableStream (chunks : list (list N)).

(** The result of the [typeof] operator. *)
Inductive TypeTag : Type :=
| TyUndefined | TyObject | TyBoolean | TyNumber | TyString
| TyBigint | TySymbol | TyFunction.

Definition typeof (v : JsValue) : TypeTag :=
  match v with
  | VUndefined => TyUndefined
  | VNull => TyObject
  | VBoolean _ => TyBoolean
  | VNumber _ => TyNumber
  | VString _ => TyString
  | VBigInt _ => TyBigint
  | VSymbol _ => TySymbol
  | VFunction _ => TyFunction
  | VArray _ | VObject _ | VArrayBuffer _ | VArrayBufferView _
  | VReadableStream _ => TyObject
  end.

(** Truthiness ([if (v)], [v && ...]). *)
Definition truthy (v : JsValue) : bool :=
  match v with
  | VUndefined | VNull => false
  | VBoolean b => b
  | VNumber n => num_truthy n
  | VString s => negb (str_eqb s [])
  | VBigInt z => negb (z =? 0)
  | _ => true
  end.

(** [v === null]. *)
Definition is_null (v : JsValue) : bool :=
  match v with VNull => true | _ => false end.

Definition of_optnum (o : option Number) : JsValue :=
  match o with Some n => VNumber n | None => VUndefined end.

(** A template literal: its literal chunks and the values substituted in
    it, in order.  The host's [ToString] of a substituted value is not
    expanded. *)
Inductive Piece : Type :=
| Lit (text : string)
| Sub (v : JsValue).

Abbreviation Template := (list Piece).

(** Exceptions: [new TypeError(message)] and [new Error(message)] are the
    two the client constructs; [HostError] stands for what the transport or
    a body decoder rejects with. *)
Inductive Exn : Type :=
| TypeError (message : Template)
| Error (message : Template)
| HostError (name : string).

Inductive Completion (A : Type) : Type :=
| Normal (a : A)
| Throw (e : Exn).
Arguments Normal {A} a.
Arguments Throw {A} e.

(** Sequencing of synchronous code: a throw skips what follows. *)
Definition andThen {A B : Type} (c : Completion A) (k : A -> Completion B)
  : Completion B :=
  match c with
  | Normal a => k a
  | Throw e => Throw e
  end.

Notation "c ;;; k" := (andThen c (fun _ => k))
  (at level 100, k at level 200, right associativity).

Definition lookup_prop (name : JsString) (props : list (JsString * JsValue))
  : JsValue :=
  match List.find (fun p => str_eqb (fst p) name) props with
  | Some p => snd p
  | None => VUndefined
  end.

(** [v.name] (and the destructuring [{name: x} = v]): a [TypeError] on
    [undefined] and [null]; an own property of a plain object; the length
    of an array or a string; [undefined] for the other names this client
    reads from other values. *)
Definition get_prop (v : JsValue) (name : string) : Completion JsValue :=
  match v with
  | VUndefined | VNull =>
      Throw (TypeError [Lit "Cannot read properties of "; Sub v;
                        Lit " (reading '"; Lit name; Lit "')"])
  | VObject props => Normal (lookup_prop (js name) props)
  | VArray items =>
      if String.eqb name "length"
      then Normal (VNumber (num (Z.of_nat (length items))))
      else Normal VUndefined
  | VString s =>
      if String.eqb name "length"
      then Normal (VNumber (num (Z.of_nat (length s))))
      else Normal VUndefined
  | _ => Normal VUndefined
  end.

(* ===================================================================== *)
(** ** Requests, responses and the host *)
(* ===================================================================== *)

Inductive Method : Type := GET | PUT | DELETE.

Definition method_name (m : Method) : string :=
  match m with GET => "GET" | PUT => "PUT" | DELETE => "DELETE" end.

(** The first argument of [fetch]: a string (here always a template
    literal), or a [URL] object built from one, with the query parameters
    appended to it in order. *)
Inductive Target : Type :=
| UrlString (href : Template)
| UrlObject (href : Template) (searchParams : list (string * Template)).

Record Request : Type := mkRequest {
  req_method : Method;
  req_url : Target;
  req_headers : gmap JsString JsString;
  req_body : option JsString
}.

(** What the client reads of a [Response]: [status], [text()], [json()],
    [arrayBuffer()] and [body]. *)
Record Response : Type := mkResponse {
  status : Z;
  text : Completion JsString;
  json : Completion JsValue;
  arrayBuffer : Completion (list N);
  body : JsValue
}.

Abbreviation Trace := (list Request).

(** [JSON.stringify(v)]: a string, [undefined], or a throw. *)
Inductive Stringified : Type :=
| SString (s : JsString)
| SUndefined
| SThrow (e : Exn).

Record Host : Type := mkHost {
  (** [new Date().getTime()]: milliseconds since the epoch. *)
  Date_getTime : Z;
  JSON_stringify : JsValue -> Stringified;
  (** [s.replace(pattern, replacement)] with a string pattern. *)
  String_replace : JsString -> JsString -> JsString -> JsString;
  (** [ToNumber] of a value that is neither a number nor [undefined]. *)
  ToNumber_other : JsValue -> Number;
  (** The reply to a request, given the requests sent before it. *)
  transport : Trace -> Request -> Completion Response
}.

(** An async computation threads the trace of requests sent so far. *)
Definition Async (A : Type) : Type := Trace -> Completion A * Trace.

Definition ret {A : Type} (a : A) : Async A := fun tr => (Normal a, tr).

Definition throw {A : Type} (e : Exn) : Async A := fun tr => (Throw e, tr).

Definition bind {A B : Type} (m : Async A) (k : A -> Async B) : Async B :=
  fun tr =>
    match m tr with
    | (Normal a, tr') => k a tr'
    | (Throw e, tr') => (Throw e, tr')
    end.

(** Synchronous code run inside an async function. *)
Definition lift {A : Type} (c : Completion A) : Async A := fun tr => (c, tr).

Notation "x <- m ;; k" := (bind m (fun x => k))
  (at level 20, m at level 99, k at level 200).
Notation "m ;; k" := (bind m (fun _ => k))
  (at level 100, k at level 200, right associativity).

(** [await fetch(...)]: the request is recorded, then the host replies. *)
Definition fetch (host : Host) (r : Request) : Async Response :=
  fun tr => (transport host tr r, tr ++ [r]).

(* ===================================================================== *)
(** ** Constants and validators of [index.ts] *)
(* ===================================================================== *)

Definition MIN_CACHE_TTL : Z := 60.
Definition MIN_EXPIRATION : Z := -2147483648.
Definition MAX_EXPIRATION : Z := 2147483647.
Definition MAX_LIST_KEYS : Z := 1000.
Definition MAX_KEY_SIZE : Z := 512.
Definition MAX_VALUE_SIZE : Z := 25 * 1024 * 1024.
Definition MAX_METADATA_SIZE : Z := 1024.

(** The double-quote character inside a message. *)
Definition dq : string := String "034"%char EmptyString.

Definition keyTypeError : string :=
  " on 'KvNamespace': parameter 1 is not of type 'string'.".

(** [if (cond) <throwing statement>]. *)
Definition when (cond : bool) (c : Completion unit) : Completion unit :=
  if cond then c else Normal tt.

(** [new Error(`KV ${method} failed: ${status} ${message}`)]. *)
Definition kvError (method : Method) (status : Z) (message : Template) : Exn :=
  Error ([Lit "KV "; Lit (method_name method); Lit " failed: ";
          Sub (VNumber (num status)); Lit " "] ++ message).

Definition throwKVError {A : Type} (method : Method) (status : Z)
    (message : Template) : Completion A :=
  Throw (kvError method status message).

Definition validateKey (method : Method) (key : JsString) : Completion unit :=
  when (str_eqb key [])
    (Throw (TypeError [Lit "Key name cannot be empty."])) ;;;
  when (str_eqb key (js "."))
    (Throw (TypeError [Lit (dq ++ "." ++ dq ++ " is not allowed as a key name.")])) ;;;
  when (str_eqb key (js ".."))
    (Throw (TypeError [Lit (dq ++ ".." ++ dq ++ " is not allowed as a key name.")])) ;;;
  let keyLength := utf8_byteLength key in
  when (keyLength >? MAX_KEY_SIZE)
    (throwKVError method 414
       [Lit "UTF-8 encoded length of "; Sub (VNumber (num keyLength));
        Lit " exceeds key length limit of ";
        Sub (VNumber (num MAX_KEY_SIZE)); Lit "."]).

Definition getValueTypes : gset JsString :=
  {[ js "text"; js "json"; js "arrayBuffer"; js "stream" ]}.

(** [Partial<KVGetOptions>]. *)
Record KVGetOptions : Type := mkGetOptions {
  type : option JsString;
  cacheTtl : option Number
}.

(** The [options] argument of [get]: omitted, a bare type, or a record. *)
Inductive GetOptionsArg : Type :=
| OptionsOmitted
| OptionsType (t : JsString)
| OptionsRecord (o : KVGetOptions).

Definition optnum_truthy (o : option Number) : bool :=
  match o with Some n => num_truthy n | None => false end.

(** A number or [undefined] where a number is expected. *)
Definition as_number (o : option Number) : Number :=
  match o with Some n => n | None => NaN end.

Definition validateGetOptions (options : GetOptionsArg) : Completion JsString :=
  let type_ :=
    match options with
    | OptionsType t => t
    | OptionsRecord o =>
        match type o with Some t => t | None => js "text" end
    | OptionsOmitted => js "text"
    end in
  let cacheTtl_ :=
    match options with
    | OptionsRecord o => cacheTtl o
    | _ => None
    end in
  when (optnum_truthy cacheTtl_
        && (Number_isNaN (as_number cacheTtl_)
            || num_lt (as_number cacheTtl_) (num MIN_CACHE_TTL)))
    (throwKVError GET 400
       [Lit "Invalid cache_ttl of "; Sub (of_optnum cacheTtl_);
        Lit ". Cache TTL must be at least ";
        Sub (VNumber (num MIN_CACHE_TTL)); Lit "."]) ;;;
  when (negb (bool_decide (type_ ∈ getValueTypes)))
    (Throw (TypeError
       [Lit ("Unknown response type. Possible types are " ++ dq ++ "text" ++ dq
             ++ ", " ++ dq ++ "arrayBuffer" ++ dq ++ ", " ++ dq ++ "json" ++ dq
             ++ ", and " ++ dq ++ "stream" ++ dq ++ ".")])) ;;;
  Normal type_.

(** Returns value as an integer or undefined if it isn't one. *)
Definition normaliseInt (value : JsValue) : option Number :=
  match value with
  | VNumber n => Some (Math_round n)
  | VString s => Some (parseInt10 s)
  | _ => None
  end.

(* ===================================================================== *)
(** ** The class [CloudflareKV] *)
(* ===================================================================== *)

Record KVOptions : Type := mkOptions {
  api_email : option JsString;
  api_key : option JsString;
  api_token : option JsString;
  account_id : JsString;
  namespace_id : JsString
}.

Record KVPutOptions : Type := mkPutOptions {
  expiration : JsValue;
  expirationTtl : JsValue;
  metadata : JsValue
}.

Record KVListOptions : Type := mkListOptions {
  prefix : option JsString;
  limit : option Number;
  cursor : option JsString
}.

(** What [getWithMetadata] resolves to. *)
Record KVValueMeta : Type := mkValueMeta {
  result_value : JsValue;
  result_metadata : JsValue
}.

(** What [list] resolves to. *)
Record KVListResult : Type := mkListResult {
  keys : JsValue;
  result_cursor : JsValue;
  list_complete : bool
}.

(** Truthiness of a string and of an optional string. *)
Definition str_truthy (s : JsString) : bool := negb (str_eqb s []).

Definition optstr_truthy (o : option JsString) : bool :=
  match o with Some s => str_truthy s | None => false end.

Definition optstr (o : option JsString) : JsString :=
  match o with Some s => s | None => [] end.

Module CloudflareKV.

(** The private fields [#headers] and [#baseUrl]. *)
Record t : Type := mk {
  headers : gmap JsString JsString;
  baseUrl : JsString
}.

Definition initial_headers : gmap JsString JsString :=
  {[ js "content-type" := js "application/json" ]}.

Definition initial_baseUrl : JsString :=
  js "https://api.cloudflare.com/client/v4/accounts/{account_identifier}/storage/kv/namespaces/{namespace_identifier}".

Section Methods.
Variable host : Host.

Definition constructor (options : KVOptions) : Completion t :=
  when (negb (str_truthy (account_id options))
        || negb (str_truthy (namespace_id options)))
    (Throw (Error [Lit "Missing account_id or namespace_id"])) ;;;
  let baseUrl1 :=
    String_replace host
      (String_replace host initial_baseUrl
         (js "{account_identifier}") (account_id options))
      (js "{namespace_identifier}") (namespace_id options) in
  when (negb (optstr_truthy (api_email options))
        && negb (optstr_truthy (api_key options))
        && negb (optstr_truthy (api_token options)))
    (Throw (Error [Lit "Missing api_email, api_key or api_token"])) ;;;
  let headers1 :=
    if optstr_truthy (api_email options) && optstr_truthy (api_key options)
    then <[ js "x-auth-key" := optstr (api_key options) ]>
           (<[ js "x-api-email" := optstr (api_email options) ]>
              initial_headers)
    else initial_headers in
  let headers2 :=
    if optstr_truthy (api_token options)
    then <[ js "authorization" :=
              js "Bearer " ++ optstr (api_token options) ]> headers1
    else headers1 in
  Normal {| headers := headers2; baseUrl := baseUrl1 |}.

(** [`${this.#baseUrl}${suffix}${key}`]. *)
Definition keyUrl (self : t) (suffix : string) (key : JsValue) : Template :=
  [Sub (VString (baseUrl self)); Lit suffix; Sub key].

(** [fetch(`${this.#baseUrl}${suffix}${key}`, { method, headers })]. *)
Definition keyRequest (method : Method) (self : t) (suffix : string)
    (key : JsValue) : Request :=
  {| req_method := method;
     req_url := UrlString (keyUrl self suffix key);
     req_headers := headers self;
     req_body := None |}.

(** The [switch (type)] of [get]. *)
Definition decodeBody (type_ : JsString) (res : Response)
  : Completion JsValue :=
  if str_eqb type_ (js "text") then
    andThen (text res) (fun s => Normal (VString s))
  else if str_eqb type_ (js "json") then
    json res
  else if str_eqb type_ (js "arrayBuffer") then
    andThen (arrayBuffer res) (fun b => Normal (VArrayBuffer b))
  else Normal (body res).

Definition get (self : t) (key : JsValue) (options : GetOptionsArg)
  : Async JsValue :=
  match key with
  | VString k =>
      lift (validateKey GET k) ;;
      type_ <- lift (validateGetOptions options) ;;
      res <- fetch host (keyRequest GET self "/values/" key) ;;
      if status res =? 404 then ret VNull
      else lift (decodeBody type_ res)
  | _ =>
      throw (TypeError [Lit "Failed to execute 'get'"; Lit keyTypeError])
  end.

Definition getWithMetadata (self : t) (key : JsValue)
    (options : GetOptionsArg) : Async KVValueMeta :=
  value <- get self key options ;;
  if is_null value
  then ret {| result_value := value; result_metadata := VNull |}
  else
    res <- fetch host (keyRequest GET self "/metadata/" key) ;;
    parsed <- lift (json res) ;;
    metadata_ <- lift (get_prop parsed "result") ;;
    ret {| result_value := value; result_metadata := metadata_ |}.

Definition delete (self : t) (key : JsValue) : Async unit :=
  match key with
  | VString k =>
      lift (validateKey DELETE k) ;;
      fetch host (keyRequest DELETE self "/values/" key) ;;
      ret tt
  | _ =>
      throw (TypeError [Lit "Failed to execute 'delete'"; Lit keyTypeError])
  end.

(** [put], the value check: what is stored; [None] when
    [JSON.stringify] returned [undefined]. *)
Definition storedValue (value : JsValue) : Completion (option JsString) :=
  match value with
  | VString s => Normal (Some s)
  | _ =>
      match typeof value with
      | TyObject =>
          match JSON_stringify host value with
          | SString s => Normal (Some s)
          | SUndefined => Normal None
          | SThrow e => Throw e
          end
      | _ =>
          Throw (TypeError [Lit "KV put() accepts only strings as values (ArrayBuffers, ArrayBufferViews, and ReadableStreams not support)."])
      end
  end.

Definition outOfRange : Exn :=
  TypeError [Lit "Value out of range. Must be between ";
             Sub (VNumber (num MIN_EXPIRATION)); Lit " and ";
             Sub (VNumber (num MAX_EXPIRATION)); Lit " (inclusive)."].

(** [normaliseInt(new Date().getTime() / 1000) as number].  The quotient
    is exact here; for a clock below 2^53 ms the double quotient is off by
    less than 1/1000 and exact on the halves, so [Math.round] gives the same
    integer for both. *)
Definition now : Number :=
  as_number
    (normaliseInt (VNumber (num_div_int (num (Date_getTime host)) 1000))).

(** [put], "Normalise and validate expiration": the value of the
    variable [expiration] after the block. *)
Definition validateExpiration (options : KVPutOptions)
  : Completion (option Number) :=
  let expiration_ := normaliseInt (expiration options) in
  let expirationTtl_ := normaliseInt (expirationTtl options) in
  if optnum_truthy expirationTtl_ then
    let ttl := as_number expirationTtl_ in
    when (num_lt ttl (num MIN_EXPIRATION) || num_gt ttl (num MAX_EXPIRATION))
      (Throw outOfRange) ;;;
    when (Number_isNaN ttl || num_le ttl (num 0))
      (throwKVError PUT 400
         [Lit "Invalid expiration_ttl of "; Sub (expirationTtl options);
          Lit ". Please specify integer greater than 0."]) ;;;
    when (num_lt ttl (num MIN_CACHE_TTL))
      (throwKVError PUT 400
         [Lit "Invalid expiration_ttl of "; Sub (expirationTtl options);
          Lit ". Expiration TTL must be at least ";
          Sub (VNumber (num MIN_CACHE_TTL)); Lit "."]) ;;;
    Normal (Some (num_add now ttl))
  else
    match expiration_ with
    | Some e =>
        when (num_lt e (num MIN_EXPIRATION) || num_gt e (num MAX_EXPIRATION))
          (Throw outOfRange) ;;;
        when (Number_isNaN e || num_le e now)
          (throwKVError PUT 400
             [Lit "Invalid expiration of "; Sub (expiration options);
              Lit ". Please specify integer greater than the current number of seconds since the UNIX epoch."]) ;;;
        when (num_lt e (num_add now (num MIN_CACHE_TTL)))
          (throwKVError PUT 400
             [Lit "Invalid expiration of "; Sub (expiration options);
              Lit ". Expiration times must be at least ";
              Sub (VNumber (num MIN_CACHE_TTL));
              Lit " seconds in the future."]) ;;;
        Normal (Some e)
    | None => Normal None
    end.

Definition lengthOfUndefined : Exn :=
  TypeError [Lit "Cannot read properties of "; Sub VUndefined;
             Lit " (reading '"; Lit "length"; Lit "')"].

(** [put], "Validate value and metadata size". *)
Definition validateSizes (stored : option JsString) (options : KVPutOptions)
  : Completion unit :=
  andThen
    (match stored with
     | Some s => Normal (Z.of_nat (length s))
     | None => Throw lengthOfUndefined
     end)
    (fun storedLength =>
  when (storedLength >? MAX_VALUE_SIZE)
    (throwKVError PUT 413
       [Lit "Value length of "; Sub (VNumber (num storedLength));
        Lit " exceeds limit of "; Sub (VNumber (num MAX_VALUE_SIZE));
        Lit "."]) ;;;
  andThen
    (if truthy (metadata options)
     then match JSON_stringify host (metadata options) with
          | SString s => Normal (Some (Z.of_nat (length s)))
          | SUndefined => Throw lengthOfUndefined
          | SThrow e => Throw e
          end
     else Normal None)
    (fun metadataLength =>
  when (match metadataLength with
        | Some l => negb (l =? 0) && (l >? MAX_METADATA_SIZE)
        | None => false
        end)
    (throwKVError PUT 413
       [Lit "Metadata length of "; Sub (VNumber (num (default 0 metadataLength)));
        Lit " exceeds limit of "; Sub (VNumber (num MAX_METADATA_SIZE));
        Lit "."]))).

(** The one-element batch that [put] serialises as the request body. *)
Definition bulkPayload (expiration_ expirationTtl_ : option Number)
    (key : JsValue) (stored : option JsString) (options : KVPutOptions)
  : JsValue :=
  VArray
    [VObject
       [(js "expiration", of_optnum expiration_);
        (js "expiration_ttl", of_optnum expirationTtl_);
        (js "key", key);
        (js "value", match stored with Some s => VString s | None => VUndefined end);
        (js "metadata", metadata options)]].

(** [fetch(`${this.#baseUrl}/bulk`, { method: 'PUT', headers, body })]. *)
Definition bulkRequest (self : t) (body_ : option JsString) : Request :=
  {| req_method := PUT;
     req_url := UrlString [Sub (VString (baseUrl self)); Lit "/bulk"];
     req_headers := headers self;
     req_body := body_ |}.

(** [JSON.stringify] as the [body] of a request: a throw is a throw of
    the caller. *)
Definition stringifyBody (payload : JsValue) : Completion (option JsString) :=
  match JSON_stringify host payload with
  | SString s => Normal (Some s)
  | SUndefined => Normal None
  | SThrow e => Throw e
  end.

Definition put (self : t) (key value : JsValue)
    (options : option KVPutOptions) : Async unit :=
  let options :=
    default {| expiration := VUndefined; expirationTtl := VUndefined;
               metadata := VUndefined |} options in
  match key with
  | VString k =>
      lift (validateKey PUT k) ;;
      stored <- lift (storedValue value) ;;
      expiration_ <- lift (validateExpiration options) ;;
      let expirationTtl_ := normaliseInt (expirationTtl options) in
      lift (validateSizes stored options) ;;
      body_ <- lift (stringifyBody
                       (bulkPayload expiration_ expirationTtl_ key stored
                          options)) ;;
      fetch host (bulkRequest self body_) ;;
      ret tt
  | _ =>
      throw (TypeError [Lit "Failed to execute 'put'"; Lit keyTypeError])
  end.

(** [ToNumber] of an operand of [<]. *)
Definition ToNumber (v : JsValue) : Number :=
  match v with
  | VNumber n => n
  | VUndefined => NaN
  | other => ToNumber_other host other
  end.

(** The query of [list]: [prefix] if non-empty, [limit], [cursor] if
    given, appended in this order. *)
Definition searchParams (prefix_ : JsString) (limit_ : Number)
    (cursor_ : option JsString) : Datatypes.list (string * Template) :=
  (if str_truthy prefix_
   then [("prefix"%string, [Sub (VString prefix_)])] else [])
  ++ (if num_truthy limit_
      then [("limit"%string, [Sub (VNumber limit_)])] else [])
  ++ (if optstr_truthy cursor_
      then [("cursor"%string, [Sub (VString (optstr cursor_))])] else []).

(** [fetch(targetUrl, { headers })]. *)
Definition keysRequest (self : t) (prefix_ : JsString) (limit_ : Number)
    (cursor_ : option JsString) : Request :=
  {| req_method := GET;
     req_url := UrlObject [Sub (VString (baseUrl self)); Lit "/keys"]
                          (searchParams prefix_ limit_ cursor_);
     req_headers := headers self;
     req_body := None |}.

Definition list (self : t) (options : option KVListOptions)
  : Async KVListResult :=
  let options :=
    default {| prefix := None; limit := None; cursor := None |} options in
  let prefix_ := default [] (prefix options) in
  let limit_ := default (num MAX_LIST_KEYS) (limit options) in
  let cursor_ := cursor options in
  lift (when (Number_isNaN limit_ || num_lt limit_ (num 1))
          (throwKVError GET 400
             [Lit "Invalid key_count_limit of "; Sub (VNumber limit_);
              Lit ". Please specify an integer greater than 0."])) ;;
  lift (when (num_gt limit_ (num MAX_LIST_KEYS))
          (throwKVError GET 400
             [Lit "Invalid key_count_limit of "; Sub (VNumber limit_);
              Lit ". Please specify an integer less than ";
              Sub (VNumber (num MAX_LIST_KEYS)); Lit "."])) ;;
  r <- fetch host (keysRequest self prefix_ limit_ cursor_) ;;
  res <- lift (json r) ;;
  keys_ <- lift (get_prop res "result") ;;
  info <- lift (get_prop res "result_info") ;;
  infoCursor <- lift (get_prop info "cursor") ;;
  keysLength <- lift (get_prop keys_ "length") ;;
  ret {| keys := keys_;
         result_cursor := infoCursor;
         list_complete := num_lt (ToNumber keysLength) limit_ |}.
End Methods.
End CloudflareKV.

(* ===================================================================== *)
(** ** A host to run the client on *)
(* ===================================================================== *)

(** A small account: the key [missing] is absent (404), the key [nothing]
    holds the JSON value [null], every other key holds the text [hello];
    every key has the metadata [{tag: "m"}]; the namespace lists two keys
    and claims the listing complete.  Its [JSON.stringify] quotes strings
    verbatim and only tells the other kinds of values apart. *)
Module Demo.

Definition stringify (v : JsValue) : Stringified :=
  match v with
  | VString s => SString ([34%N] ++ s ++ [34%N])
  | VUndefined | VFunction _ | VSymbol _ => SUndefined
  | VBigInt _ =>
      SThrow (TypeError [Lit "Do not know how to serialize a BigInt"])
  | VArray _ => SString (js "[{}]")
  | _ => SString (js "{}")
  end.

Definition startsWith (pattern s : JsString) : bool :=
  str_eqb (take (length pattern) s) pattern.

(** Replaces the first occurrence of [pattern]. *)
Fixpoint replace (s pattern replacement : JsString) : JsString :=
  if startsWith pattern s then replacement ++ drop (length pattern) s
  else match s with
       | c :: rest => c :: replace rest pattern replacement
       | [] => []
       end.

Definition notFound : Response :=
  {| status := 404; text := Normal (js "key not found");
     json := Throw (HostError "SyntaxError");
     arrayBuffer := Normal []; body := VReadableStream [] |}.

Definition hello : Response :=
  {| status := 200; text := Normal (js "hello");
     json := Throw (HostError "SyntaxError");
     arrayBuffer := Normal (js "hello");
     body := VReadableStream [js "hello"] |}.

Definition nothing : Response :=
  {| status := 200; text := Normal (js "null");
     json := Normal VNull;
     arrayBuffer := Normal (js "null");
     body := VReadableStream [js "null"] |}.

Definition reply (value : JsValue) : Response :=
  {| status := 200; text := Normal [];
     json := Normal value;
     arrayBuffer := Normal []; body := VReadableStream [] |}.

Definition page : JsValue :=
  VObject
    [(js "result",
      VArray [VObject [(js "name", VString (js "a"))];
              VObject [(js "name", VString (js "b"))]]);
     (js "result_info", VObject [(js "cursor", VString (js "c1"))]);
     (js "list_complete", VBoolean true)].

Definition respond (_ : Trace) (r : Request) : Completion Response :=
  match req_url r with
  | UrlObject _ _ => Normal (reply page)
  | UrlString [_; Lit suffix; Sub (VString k)] =>
      if String.eqb suffix "/metadata/" then
        Normal (reply (VObject [(js "result",
                                 VObject [(js "tag", VString (js "m"))])]))
      else if str_eqb k (js "missing") then Normal notFound
      else if str_eqb k (js "nothing") then Normal nothing
      else Normal hello
  | UrlString _ => Normal (reply (VObject [(js "success", VBoolean true)]))
  end.

Definition host : Host :=
  {| Date_getTime := 1700000000499;
     JSON_stringify := stringify;
     String_replace := replace;
     ToNumber_other := fun _ => NaN;
     transport := respond |}.

Definition self : CloudflareKV.t :=
  {| CloudflareKV.headers :=
       <[ js "authorization" := js "Bearer secret" ]>
         CloudflareKV.initial_headers;
     CloudflareKV.baseUrl := js "https://kv.example" |}.

End Demo.

(* ===================================================================== *)
(** ** Vocabulary of the specification *)
(* ===================================================================== *)

(** The error classes of the specification, read off what the code throws:
    [InvalidArgument] is a [TypeError] or a KV error with status 400,
    [RequestTooLarge] is a KV error with status 413 or 414. *)
Inductive InvalidArgument : Exn -> Prop :=
| IA_TypeError (message : Template) : InvalidArgument (TypeError message)
| IA_400 (method : Method) (message : Template) :
    InvalidArgument (kvError method 400 message).

Inductive RequestTooLarge : Exn -> Prop :=
| RTL_413 (method : Method) (message : Template) :
    RequestTooLarge (kvError method 413 message)
| RTL_414 (method : Method) (message : Template) :
    RequestTooLarge (kvError method 414 message).

(** The computation throws [e] and sends nothing, whatever was sent before. *)
Definition fails_before_io {A : Type} (m : Async A) (e : Exn) : Prop :=
  forall tr : Trace, m tr = (Throw e, tr).

(** The 414 error of [validateKey]. *)
Definition keyTooLong (method : Method) (key : JsString) : Exn :=
  kvError method 414
    [Lit "UTF-8 encoded length of "; Sub (VNumber (num (utf8_byteLength key)));
     Lit " exceeds key length limit of "; Sub (VNumber (num 512)); Lit "."].

Definition reservedKey (key : JsString) : Prop :=
  key = [] \/ key = js "." \/ key = js "..".

(** *** Key validation (C4) *)

(** The outcome claimed for a refused key [k]: the four keyed operations
    throw [e] of their method ([getWithMetadata] goes through [get]) and
    leave the trace as it was; a reserved name gives an [InvalidArgument],
    an over-long key gives the 414 error with the measured length and the
    limit of 512. *)
Definition refusedKeyOutcome (host : Host) (self : CloudflareKV.t)
    (k : JsString) (e : Method -> Exn) : Prop :=
  ((forall o, fails_before_io (CloudflareKV.get host self (VString k) o) (e GET))
   /\ (forall o, fails_before_io
                   (CloudflareKV.getWithMetadata host self (VString k) o) (e GET))
   /\ (forall v o, fails_before_io
                     (CloudflareKV.put host self (VString k) v o) (e PUT))
   /\ fails_before_io (CloudflareKV.delete host self (VString k)) (e DELETE))
  /\ (reservedKey k -> forall method, InvalidArgument (e method))
  /\ (MAX_KEY_SIZE < utf8_byteLength k ->
      forall method, e method = keyTooLong method k /\ RequestTooLarge (e method)).

(** *** Listing (C2, C8) *)

(** The options of a [list] call after the defaults of its parameter. *)
Definition listOptions (options : option KVListOptions) : KVListOptions :=
  default {| prefix := None; limit := None; cursor := None |} options.

(** The requested limit: the caller's, or 1000. *)
Definition listLimit (options : option KVListOptions) : Number :=
  default (num MAX_LIST_KEYS) (limit (listOptions options)).

(** The one request of a [list] call. *)
Definition listRequest (self : CloudflareKV.t) (options : option KVListOptions)
  : Request :=
  CloudflareKV.keysRequest self
    (default [] (prefix (listOptions options)))
    (listLimit options)
    (cursor (listOptions options)).

(** The limit passes the two checks of [list]. *)
Definition acceptedLimit (l : Number) : Prop :=
  (Number_isNaN l || num_lt l (num 1)) = false
  /\ num_gt l (num MAX_LIST_KEYS) = false.

(** The two errors of the limit checks of [list]. *)
Definition limitTooSmall (l : Number) : Exn :=
  kvError GET 400
    [Lit "Invalid key_count_limit of "; Sub (VNumber l);
     Lit ". Please specify an integer greater than 0."].

Definition limitTooLarge (l : Number) : Exn :=
  kvError GET 400
    [Lit "Invalid key_count_limit of "; Sub (VNumber l);
     Lit ". Please specify an integer less than ";
     Sub (VNumber (num 1000)); Lit "."].

(** The number is a positive integer. *)
Definition positiveInteger (l : Number) : Prop :=
  exists (n : Z) (q : Q), 0 < n /\ l = Finite q /\ (q == inject_Z n)%Q.

(** The query parameters of a request. *)
Definition queryOf (r : Request) : list (string * Template) :=
  match req_url r with
  | UrlObject _ params => params
  | UrlString _ => []
  end.

(** *** Reading (C3, C9, C10) *)

(** The request of the value lookup and of the metadata lookup. *)
Definition valueRequest (self : CloudflareKV.t) (k : JsString) : Request :=
  CloudflareKV.keyRequest GET self "/values/" (VString k).

Definition metadataRequest (self : CloudflareKV.t) (k : JsString) : Request :=
  CloudflareKV.keyRequest GET self "/metadata/" (VString k).

(** The error of the cache directive check. *)
Definition cacheTtlTooSmall (c : Number) : Exn :=
  kvError GET 400
    [Lit "Invalid cache_ttl of "; Sub (VNumber c);
     Lit ". Cache TTL must be at least "; Sub (VNumber (num 60)); Lit "."].

(** The options name no type: the argument is omitted, or a record without
    the field. *)
Definition typeOmitted (options : GetOptionsArg) : Prop :=
  options = OptionsOmitted
  \/ exists c, options = OptionsRecord {| type := None; cacheTtl := c |}.

(** The same options with the type spelled out. *)
Definition withType (ty : JsString) (options : GetOptionsArg) : GetOptionsArg :=
  match options with
  | OptionsOmitted => OptionsType ty
  | OptionsType t => OptionsType t
  | OptionsRecord o => OptionsRecord {| type := Some ty; cacheTtl := cacheTtl o |}
  end.

(** The cache directive of the options, if any. *)
Definition cacheTtlOf (options : GetOptionsArg) : option Number :=
  match options with
  | OptionsRecord o => cacheTtl o
  | _ => None
  end.

(** The directive is absent or passes the floor check. *)
Definition cacheTtlAccepted (options : GetOptionsArg) : Prop :=
  match cacheTtlOf options with
  | Some c => (num_truthy c && num_lt c (num 60)) = false
  | None => True
  end.

(** *** Construction and headers (C7) *)

(** The header [name] of a client built from [options]: the content type,
    the bearer authorization when a token is given, the email and key pair
    when both are given. *)
Definition headerOf (options : KVOptions) (name : JsString) : option JsString :=
  if decide (name = js "authorization") then
    if optstr_truthy (api_token options)
    then Some (js "Bearer " ++ optstr (api_token options)) else None
  else if decide (name = js "x-auth-key") then
    if optstr_truthy (api_email options) && optstr_truthy (api_key options)
    then Some (optstr (api_key options)) else None
  else if decide (name = js "x-api-email") then
    if optstr_truthy (api_email options) && optstr_truthy (api_key options)
    then Some (optstr (api_email options)) else None
  else if decide (name = js "content-type") then Some (js "application/json")
  else None.

(** Whatever the trace before it, the computation only appends requests
    that carry the headers [hd]. *)
Definition sends_only_with {A : Type} (hd : gmap JsString JsString)
    (m : Async A) : Prop :=
  forall tr : Trace,
    exists reqs : list Request,
      snd (m tr) = tr ++ reqs /\ Forall (fun r => req_headers r = hd) reqs.

(** Every operation of the client sends its requests with [hd]. *)
Definition all_operations_send_with (host : Host) (self : CloudflareKV.t)
    (hd : gmap JsString JsString) : Prop :=
  (forall key o, sends_only_with hd (CloudflareKV.get host self key o))
  /\ (forall key o, sends_only_with hd (CloudflareKV.getWithMetadata host self key o))
  /\ (forall key v o, sends_only_with hd (CloudflareKV.put host self key v o))
  /\ (forall key, sends_only_with hd (CloudflareKV.delete host self key))
  /\ (forall o, sends_only_with hd (CloudflareKV.list host self o)).

(** Options with both credential schemes, and with an email alone. *)
Definition bothSchemes : KVOptions :=
  {| api_email := Some (js "me@example.org"); api_key := Some (js "key");
     api_token := Some (js "tok");
     account_id := js "acc"; namespace_id := js "ns" |}.

Definition emailOnly : KVOptions :=
  {| api_email := Some (js "me@example.org"); api_key := None;
     api_token := None;
     account_id := js "acc"; namespace_id := js "ns" |}.

(** *** Writing (C1, C5, C6) *)

(** The options of a [put] call after the default of its parameter. *)
Definition putOptions (options : option KVPutOptions) : KVPutOptions :=
  default {| expiration := VUndefined; expirationTtl := VUndefined;
             metadata := VUndefined |} options.

(** What [put] does once its request is sent: the reply is awaited and
    dropped. *)
Definition putSent (host : Host) (self : CloudflareKV.t)
    (body_ : option JsString) (tr : Trace) : Completion unit * Trace :=
  (andThen (transport host tr (CloudflareKV.bulkRequest self body_))
     (fun _ => Normal tt),
   tr ++ [CloudflareKV.bulkRequest self body_]).

(** A binary buffer, a byte view or a stream. *)
Definition binaryValue (v : JsValue) : Prop :=
  match v with
  | VArrayBuffer _ | VArrayBufferView _ | VReadableStream _ => True
  | _ => False
  end.

(** The 413 errors of [put]. *)
Definition valueTooLarge (len : Z) : Exn :=
  kvError PUT 413
    [Lit "Value length of "; Sub (VNumber (num len));
     Lit " exceeds limit of "; Sub (VNumber (num 26214400)); Lit "."].

Definition metadataTooLarge (len : Z) : Exn :=
  kvError PUT 413
    [Lit "Metadata length of "; Sub (VNumber (num len));
     Lit " exceeds limit of "; Sub (VNumber (num 1024)); Lit "."].

(** The clock in whole seconds, halves rounded up. *)
Definition unixSeconds (host : Host) : Z := (Date_getTime host + 500) / 1000.

(** The two 400 errors of the TTL checks. *)
Definition ttlNotPositive (raw : JsValue) : Exn :=
  kvError PUT 400
    [Lit "Invalid expiration_ttl of "; Sub raw;
     Lit ". Please specify integer greater than 0."].

Definition ttlBelowFloor (raw : JsValue) : Exn :=
  kvError PUT 400
    [Lit "Invalid expiration_ttl of "; Sub raw;
     Lit ". Expiration TTL must be at least "; Sub (VNumber (num 60)); Lit "."].

(** *** Further properties: keys *)

(** The [TypeError] of an operation called with a key that is not a string. *)
Definition keyNotString (operation : string) : Exn :=
  TypeError [Lit ("Failed to execute '" ++ operation ++ "'"); Lit keyTypeError].

(** Every code unit is below 128. *)
Definition asciiString (s : JsString) : Prop :=
  Forall (fun c => (c < 128)%N) s.

(** *** Further properties: reading *)

(** The type a get call asks for: the bare string, the field of the
    record, or ['text']. *)
Definition requestedType (options : GetOptionsArg) : JsString :=
  match options with
  | OptionsType t => t
  | OptionsRecord o => default (js "text") (type o)
  | OptionsOmitted => js "text"
  end.

(** The [TypeError] of [validateGetOptions]. *)
Definition unknownResponseType : Exn :=
  TypeError
    [Lit ("Unknown response type. Possible types are " ++ dq ++ "text" ++ dq
          ++ ", " ++ dq ++ "arrayBuffer" ++ dq ++ ", " ++ dq ++ "json" ++ dq
          ++ ", and " ++ dq ++ "stream" ++ dq ++ ".")].

(** *** Further properties: writing and deleting *)

(** The request of [delete]. *)
Definition deleteRequest (self : CloudflareKV.t) (k : JsString) : Request :=
  CloudflareKV.keyRequest DELETE self "/values/" (VString k).

(** The two 400 errors of the checks of an absolute expiration. *)
Definition expirationNotFuture (raw : JsValue) : Exn :=
  kvError PUT 400
    [Lit "Invalid expiration of "; Sub raw;
     Lit ". Please specify integer greater than the current number of seconds since the UNIX epoch."].

Definition expirationTooSoon (raw : JsValue) : Exn :=
  kvError PUT 400
    [Lit "Invalid expiration of "; Sub raw;
     Lit ". Expiration times must be at least "; Sub (VNumber (num 60));
     Lit " seconds in the future."].

(** The options without their absolute expiration. *)
Definition withoutExpiration (options : KVPutOptions) : KVPutOptions :=
  {| expiration := VUndefined;
     expirationTtl := expirationTtl options;
     metadata := metadata options |}.

(** The batch of a put without expiration. *)
Definition plainBatch (k s : JsString) (meta : JsValue) : JsValue :=
  VArray
    [VObject
       [(js "expiration", VUndefined);
        (js "expiration_ttl", VUndefined);
        (js "key", VString k);
        (js "value", VString s);
        (js "metadata", meta)]].

(** *** Further properties: numbers *)

(** The value of a run of decimal digits read after the digits worth [acc]. *)
Fixpoint uintValue (d : Decimal.uint) (acc : Z) : Z :=
  match d with
  | Decimal.Nil => acc
  | Decimal.D0 d => uintValue d (10 * acc)
  | Decimal.D1 d => uintValue d (10 * acc + 1)
  | Decimal.D2 d => uintValue d (10 * acc + 2)
  | Decimal.D3 d => uintValue d (10 * acc + 3)
  | Decimal.D4 d => uintValue d (10 * acc + 4)
  | Decimal.D5 d => uintValue d (10 * acc + 5)
  | Decimal.D6 d => uintValue d (10 * acc + 6)
  | Decimal.D7 d => uintValue d (10 * acc + 7)
  | Decimal.D8 d => uintValue d (10 * acc + 8)
  | Decimal.D9 d => uintValue d (10 * acc + 9)
  end.

(** The decimal writing of an integer: its digits, after a minus sign when
    it is negative. *)
Definition decimal (z : Z) : JsString :=
  js (DecimalString.NilEmpty.string_of_int (Z.to_int z)).

(** The string ends, or goes on with something that is not a digit. *)
Definition noDigitNext (rest : JsString) : Prop :=
  match rest with
  | [] => True
  | c :: _ => digitValue c = None
  end.

(** *** Further properties: round trips *)

(** The computation has thrown without sending anything. *)
Definition stopped {A : Type} (m : Async A) (tr : Trace) : Prop :=
  exists e, m tr = (Throw e, tr).

(** The computation has sent exactly the requests [reqs], in this order. *)
Definition sent {A : Type} (m : Async A) (tr : Trace) (reqs : list Request)
  : Prop :=
  snd (m tr) = tr ++ reqs.

(** A host whose server refuses every request with status 403 and the
    error envelope [{success: false, result: null}]. *)
Definition errorReply : Response :=
  {| status := 403; text := Normal (js "forbidden");
     json := Normal (VObject [(js "success", VBoolean false);
                              (js "result", VNull)]);
     arrayBuffer := Normal (js "forbidden");
     body := VReadableStream [js "forbidden"] |}.

Definition refusingHost : Host :=
  {| Date_getTime := Date_getTime Demo.host;
     JSON_stringify := JSON_stringify Demo.host;
     String_replace := String_replace Demo.host;
     ToNumber_other := ToNumber_other Demo.host;
     transport := fun _ _ => Normal errorReply |}.

(* ===================================================================== *)
(** ** Basic facts *)
(* ===================================================================== *)

Lemma str_eqb_eq (a b : JsString) : str_eqb a b = true <-> a = b.
Proof. unfold str_eqb. apply bool_decide_eq_true. Qed.

Lemma str_eqb_neq (a b : JsString) : str_eqb a b = false <-> a <> b.
Proof. unfold str_eqb. apply bool_decide_eq_false. Qed.

Lemma str_eqb_refl (a : JsString) : str_eqb a a = true.
Proof. now apply str_eqb_eq. Qed.

Lemma bind_normal {A B : Type} (m : Async A) (k : A -> Async B) tr a tr' :
  m tr = (Normal a, tr') -> bind m k tr = k a tr'.
Proof. unfold bind. now intros ->. Qed.

Lemma bind_throw {A B : Type} (m : Async A) (k : A -> Async B) tr e tr' :
  m tr = (Throw e, tr') -> bind m k tr = (Throw e, tr').
Proof. unfold bind. now intros ->. Qed.

Lemma bind_lift {A B : Type} (c : Completion A) (k : A -> Async B) tr :
  bind (lift c) k tr =
  match c with Normal a => k a tr | Throw e => (Throw e, tr) end.
Proof. reflexivity. Qed.

Lemma bind_fetch {B : Type} host r (k : Response -> Async B) tr :
  bind (fetch host r) k tr =
  match transport host tr r with
  | Normal res => k res (tr ++ [r])
  | Throw e => (Throw e, tr ++ [r])
  end.
Proof. reflexivity. Qed.

(** *** Keys *)

Lemma utf8_byteLength_nonneg (s : JsString) : 0 <= utf8_byteLength s.
Proof.
  remember (length s) as n eqn:Hn.
  revert s Hn. induction n as [n IH] using lt_wf_ind. intros s Hn.
  destruct s as [|c rest]; simpl; [lia|].
  assert (Hrest : 0 <= utf8_byteLength rest)
    by (apply (IH (length rest)); simpl in Hn; [lia | reflexivity]).
  destruct (c <? 128)%N; [lia|].
  destruct (c <? 2048)%N; [lia|].
  destruct (isHighSurrogate c); [|lia].
  destruct rest as [|d rest']; [lia|].
  destruct (isLowSurrogate d); [|lia].
  assert (0 <= utf8_byteLength rest')
    by (apply (IH (length rest')); simpl in Hn; [lia | reflexivity]).
  lia.
Qed.

Lemma validateKey_ok (method : Method) (k : JsString) :
  k <> [] -> k <> js "." -> k <> js ".." -> utf8_byteLength k <= MAX_KEY_SIZE ->
  validateKey method k = Normal tt.
Proof.
  intros H0 H1 H2 Hlen. unfold validateKey.
  apply str_eqb_neq in H0, H1, H2. rewrite H0, H1, H2. simpl.
  destruct (Z.gtb_spec (utf8_byteLength k) MAX_KEY_SIZE); [lia | reflexivity].
Qed.

Lemma validateKey_reserved (method : Method) (k : JsString) :
  reservedKey k -> exists m, validateKey method k = Throw (TypeError m).
Proof.
  intros [-> | [-> | ->]]; eexists; reflexivity.
Qed.

Lemma validateKey_too_long (method : Method) (k : JsString) :
  MAX_KEY_SIZE < utf8_byteLength k ->
  validateKey method k = Throw (keyTooLong method k).
Proof.
  intros Hlen. unfold validateKey.
  assert (H0 : str_eqb k [] = false).
  { apply str_eqb_neq. intros ->. vm_compute in Hlen. discriminate. }
  assert (H1 : str_eqb k (js ".") = false).
  { apply str_eqb_neq. intros ->. vm_compute in Hlen. discriminate. }
  assert (H2 : str_eqb k (js "..") = false).
  { apply str_eqb_neq. intros ->. vm_compute in Hlen. discriminate. }
  rewrite H0, H1, H2. simpl.
  destruct (Z.gtb_spec (utf8_byteLength k) MAX_KEY_SIZE); [reflexivity | lia].
Qed.

(** A key that [validateKey] refuses stops every keyed operation before
    anything is sent. *)
Lemma keyed_operations_stop (host : Host) (self : CloudflareKV.t)
    (k : JsString) (e : Method -> Exn) :
  (forall method, validateKey method k = Throw (e method)) ->
  (forall o, fails_before_io (CloudflareKV.get host self (VString k) o) (e GET))
  /\ (forall o, fails_before_io
                  (CloudflareKV.getWithMetadata host self (VString k) o) (e GET))
  /\ (forall v o, fails_before_io
                    (CloudflareKV.put host self (VString k) v o) (e PUT))
  /\ fails_before_io (CloudflareKV.delete host self (VString k)) (e DELETE).
Proof.
  intros Hk.
  assert (Hget : forall o,
             fails_before_io (CloudflareKV.get host self (VString k) o) (e GET)).
  { intros o tr. unfold CloudflareKV.get. rewrite bind_lift, Hk. reflexivity. }
  repeat split.
  - exact Hget.
  - intros o tr. unfold CloudflareKV.getWithMetadata.
    apply bind_throw, Hget.
  - intros v o tr. unfold CloudflareKV.put. rewrite bind_lift, Hk. reflexivity.
  - intros tr. unfold CloudflareKV.delete. rewrite bind_lift, Hk. reflexivity.
Qed.

(* ===================================================================== *)
(** ** Key validation (C4) *)
(* ===================================================================== *)

(** C4. A key that is empty, ["."] or [".."] makes get, getWithMetadata,
    put and delete fail with an InvalidArgument-class error, and a key whose
    UTF-8 encoding is longer than 512 bytes makes them fail with the 414
    RequestTooLarge-class error whose message carries the measured byte
    length and the limit 512; in both cases nothing is sent. *)
Theorem invalid_key_fails_before_io (host : Host) (self : CloudflareKV.t)
    (k : JsString) :
  reservedKey k \/ MAX_KEY_SIZE < utf8_byteLength k ->
  exists e : Method -> Exn, refusedKeyOutcome host self k e.
Proof.
  intros [Hres | Hlong].
  - assert (Hshort : ~ MAX_KEY_SIZE < utf8_byteLength k).
    { destruct Hres as [-> | [-> | ->]]; vm_compute; discriminate. }
    assert (He : exists m, forall method, validateKey method k = Throw (TypeError m)).
    { destruct Hres as [-> | [-> | ->]]; eexists; intros method; reflexivity. }
    destruct He as [m Hm].
    exists (fun _ => TypeError m). split; [|split].
    + apply (keyed_operations_stop host self k (fun _ => TypeError m)), Hm.
    + intros _ method. constructor.
    + intros Hlong. contradiction.
  - exists (fun method => keyTooLong method k). split; [|split].
    + apply (keyed_operations_stop host self k (fun method => keyTooLong method k)).
      intros method. now apply validateKey_too_long.
    + intros Hres. exfalso.
      destruct Hres as [-> | [-> | ->]]; vm_compute in Hlong; discriminate.
    + intros _ method. split; [reflexivity | apply RTL_414].
Qed.

Lemma invalid_key_fails_before_io_witness :
  (exists e, refusedKeyOutcome Demo.host Demo.self (js "..") e)
  /\ (exists e, refusedKeyOutcome Demo.host Demo.self (repeat 233%N 257) e).
Proof.
  split.
  - apply (invalid_key_fails_before_io Demo.host Demo.self (js "..")).
    left. right. right. reflexivity.
  - apply (invalid_key_fails_before_io Demo.host Demo.self (repeat 233%N 257)).
    right. vm_compute. reflexivity.
Defined.

(* ===================================================================== *)
(** ** Listing (C2, C8) *)
(* ===================================================================== *)

Lemma Qlt_bool_iff (x y : Q) : Qlt_bool x y = true <-> (x < y)%Q.
Proof.
  unfold Qlt_bool. rewrite negb_true_iff, <- not_true_iff_false, Qle_bool_iff.
  split; [apply Qnot_le_lt | apply Qlt_not_le].
Qed.

Lemma acceptedLimit_finite (l : Number) :
  acceptedLimit l -> exists q, l = Finite q /\ (1 <= q)%Q /\ (q <= 1000)%Q.
Proof.
  intros [H1 H2]. destruct l as [| [|] | q]; try discriminate.
  exists q. split; [reflexivity|].
  split.
  - apply Qnot_lt_le. intros Hlt. apply Qlt_bool_iff in Hlt.
    exact (eq_true_false_abs _ Hlt H1).
  - apply Qnot_lt_le. intros Hlt. apply Qlt_bool_iff in Hlt.
    exact (eq_true_false_abs _ Hlt H2).
Qed.

(** What [list] does once its limit is accepted: one request, then the
    reply is taken apart. *)
Lemma list_accepted (host : Host) (self : CloudflareKV.t)
    (options : option KVListOptions) (tr : Trace) :
  acceptedLimit (listLimit options) ->
  CloudflareKV.list host self options tr =
  ( andThen (transport host tr (listRequest self options)) (fun r =>
    andThen (json r) (fun res =>
    andThen (get_prop res "result") (fun keys_ =>
    andThen (get_prop res "result_info") (fun info =>
    andThen (get_prop info "cursor") (fun infoCursor =>
    andThen (get_prop keys_ "length") (fun keysLength =>
    Normal {| keys := keys_;
              result_cursor := infoCursor;
              list_complete :=
                num_lt (CloudflareKV.ToNumber host keysLength)
                       (listLimit options) |})))))),
    tr ++ [listRequest self options] ).
Proof.
  intros [H1 H2]. unfold CloudflareKV.list.
  fold (listOptions options). fold (listLimit options).
  rewrite bind_lift, H1. cbv beta iota delta [when].
  rewrite bind_lift, H2. cbv beta iota delta [when].
  fold (listRequest self options).
  rewrite bind_fetch.
  destruct (transport host tr (listRequest self options)) as [r|e]; [|reflexivity].
  simpl andThen. rewrite bind_lift.
  destruct (json r) as [res|e]; [|reflexivity].
  simpl andThen. rewrite bind_lift.
  destruct (get_prop res "result") as [keys_|e]; [|reflexivity].
  simpl andThen. rewrite bind_lift.
  destruct (get_prop res "result_info") as [info|e]; [|reflexivity].
  simpl andThen. rewrite bind_lift.
  destruct (get_prop info "cursor") as [c|e]; [|reflexivity].
  simpl andThen. rewrite bind_lift.
  destruct (get_prop keys_ "length") as [len|e]; reflexivity.
Qed.

(** C2. When a [list] call gets a reply whose [result] is an array and
    whose [result_info] can be read, the returned [list_complete] is true
    exactly when the page holds strictly fewer keys than the requested
    limit (the accepted limit of the caller, 1000 by default), whatever
    else the reply says; a page as long as the limit gives [false]. *)
Theorem list_complete_iff_short_page (host : Host) (self : CloudflareKV.t)
    (options : option KVListOptions) (tr : Trace)
    (r : Response) (res : JsValue) (page : list JsValue)
    (info infoCursor : JsValue) :
  acceptedLimit (listLimit options) ->
  transport host tr (listRequest self options) = Normal r ->
  json r = Normal res ->
  get_prop res "result" = Normal (VArray page) ->
  get_prop res "result_info" = Normal info ->
  get_prop info "cursor" = Normal infoCursor ->
  exists (complete : bool) (q : Q),
    CloudflareKV.list host self options tr =
      (Normal {| keys := VArray page; result_cursor := infoCursor;
                 list_complete := complete |},
       tr ++ [listRequest self options])
    /\ listLimit options = Finite q
    /\ (complete = true <-> (inject_Z (Z.of_nat (length page)) < q)%Q)
    /\ ((inject_Z (Z.of_nat (length page)) == q)%Q -> complete = false).
Proof.
  intros Hacc Hr Hjson Hkeys Hinfo Hcursor.
  destruct (acceptedLimit_finite _ Hacc) as (q & Hq & _ & _).
  exists (Qlt_bool (inject_Z (Z.of_nat (length page))) q), q.
  split; [|split; [exact Hq|split]].
  - rewrite (list_accepted host self options tr Hacc).
    rewrite Hr. simpl andThen. rewrite Hjson. simpl andThen.
    rewrite Hkeys. simpl andThen. rewrite Hinfo. simpl andThen.
    rewrite Hcursor. simpl andThen. rewrite Hq. reflexivity.
  - apply Qlt_bool_iff.
  - intros Heq. apply not_true_iff_false. rewrite Qlt_bool_iff.
    rewrite Heq. apply Qlt_irrefl.
Qed.

Lemma list_complete_iff_short_page_witness :
  exists (complete : bool) (q : Q),
    CloudflareKV.list Demo.host Demo.self
      (Some {| prefix := Some (js "user:"); limit := Some (num 2);
               cursor := None |}) [] =
      (Normal {| keys := VArray [VObject [(js "name", VString (js "a"))];
                                 VObject [(js "name", VString (js "b"))]];
                 result_cursor := VString (js "c1");
                 list_complete := complete |},
       [] ++ [listRequest Demo.self
                (Some {| prefix := Some (js "user:"); limit := Some (num 2);
                         cursor := None |})])
    /\ listLimit (Some {| prefix := Some (js "user:"); limit := Some (num 2);
                          cursor := None |}) = Finite q
    /\ (complete = true <-> (inject_Z (Z.of_nat 2) < q)%Q)
    /\ ((inject_Z (Z.of_nat 2) == q)%Q -> complete = false).
Proof.
  apply (list_complete_iff_short_page Demo.host Demo.self
           (Some {| prefix := Some (js "user:"); limit := Some (num 2);
                    cursor := None |}) []
           (Demo.reply Demo.page) Demo.page
           [VObject [(js "name", VString (js "a"))];
            VObject [(js "name", VString (js "b"))]]
           (VObject [(js "cursor", VString (js "c1"))])
           (VString (js "c1"))).
  - split; reflexivity.
  - reflexivity.
  - reflexivity.
  - reflexivity.
  - reflexivity.
  - reflexivity.
Defined.

Lemma acceptedLimit_truthy (l : Number) : acceptedLimit l -> num_truthy l = true.
Proof.
  intros Hacc. destruct (acceptedLimit_finite l Hacc) as (q & -> & Hge & _).
  simpl. apply negb_true_iff, not_true_iff_false. rewrite Qeq_bool_iff.
  intros Heq. rewrite Heq in Hge. apply Qle_not_lt in Hge.
  apply Hge. reflexivity.
Qed.

Lemma limit_is_sent (self : CloudflareKV.t) (options : option KVListOptions) :
  acceptedLimit (listLimit options) ->
  In ("limit"%string, [Sub (VNumber (listLimit options))])
     (queryOf (listRequest self options)).
Proof.
  intros Hacc. unfold listRequest, CloudflareKV.keysRequest, queryOf. simpl.
  unfold CloudflareKV.searchParams. rewrite (acceptedLimit_truthy _ Hacc).
  apply in_or_app. right. apply in_or_app. left. now left.
Qed.

(** C8, the claim fails: the limit 5/2 is not a positive integer, yet the
    call is not refused and its request is sent. *)
Lemma list_fractional_limit_accepted :
  ~ positiveInteger (Finite (5 # 2))
  /\ exists result,
       CloudflareKV.list Demo.host Demo.self
         (Some {| prefix := None; limit := Some (Finite (5 # 2));
                  cursor := None |}) [] =
       (Normal result,
        [listRequest Demo.self
           (Some {| prefix := None; limit := Some (Finite (5 # 2));
                    cursor := None |})]).
Proof.
  split.
  - intros (n & q & Hpos & Hq & Heq). injection Hq as <-.
    unfold Qeq in Heq. simpl in Heq. lia.
  - eexists. reflexivity.
Qed.

(** C8, amended. With [l] the limit of the call (1000 when omitted):
    if [l] is [NaN] or below 1 the call fails with the KV 400 error asking
    for an integer greater than 0, otherwise if [l] is above 1000 it fails
    with the KV 400 error citing 1000, both InvalidArgument-class and before
    anything is sent; every other limit, integer or not, is accepted, and
    then the one request of the call carries the query parameter [limit]
    with the value [l]; an omitted limit is 1000 and is accepted. *)
Theorem list_limit_validation (host : Host) (self : CloudflareKV.t)
    (options : option KVListOptions) :
  ((Number_isNaN (listLimit options) || num_lt (listLimit options) (num 1)) = true ->
   fails_before_io (CloudflareKV.list host self options)
                   (limitTooSmall (listLimit options))
   /\ InvalidArgument (limitTooSmall (listLimit options)))
  /\ ((Number_isNaN (listLimit options) || num_lt (listLimit options) (num 1)) = false ->
      num_gt (listLimit options) (num 1000) = true ->
      fails_before_io (CloudflareKV.list host self options)
                      (limitTooLarge (listLimit options))
      /\ InvalidArgument (limitTooLarge (listLimit options)))
  /\ (acceptedLimit (listLimit options) ->
      (forall tr, snd (CloudflareKV.list host self options tr) =
                  tr ++ [listRequest self options])
      /\ In ("limit"%string, [Sub (VNumber (listLimit options))])
            (queryOf (listRequest self options)))
  /\ (limit (listOptions options) = None ->
      listLimit options = num 1000 /\ acceptedLimit (listLimit options)).
Proof.
  split; [|split; [|split]].
  - intros H1. split; [|apply IA_400].
    intros tr. unfold CloudflareKV.list.
    fold (listOptions options). fold (listLimit options).
    rewrite bind_lift, H1. reflexivity.
  - intros H1 H2. split; [|apply IA_400].
    intros tr. unfold CloudflareKV.list.
    fold (listOptions options). fold (listLimit options).
    rewrite bind_lift, H1. cbv beta iota delta [when].
    rewrite bind_lift. change (num MAX_LIST_KEYS) with (num 1000).
    rewrite H2. reflexivity.
  - intros Hacc. split; [|now apply limit_is_sent].
    intros tr. now rewrite (list_accepted host self options tr Hacc).
  - intros Hnone. unfold listLimit. rewrite Hnone.
    split; [reflexivity | split; reflexivity].
Qed.

Lemma list_limit_validation_witness :
  fails_before_io
    (CloudflareKV.list Demo.host Demo.self
       (Some {| prefix := None; limit := Some (num 0); cursor := None |}))
    (limitTooSmall (num 0))
  /\ fails_before_io
       (CloudflareKV.list Demo.host Demo.self
          (Some {| prefix := None; limit := Some (num 1001); cursor := None |}))
       (limitTooLarge (num 1001))
  /\ In ("limit"%string, [Sub (VNumber (num 1000))])
        (queryOf (listRequest Demo.self None)).
Proof.
  split; [|split].
  - apply (list_limit_validation Demo.host Demo.self
             (Some {| prefix := None; limit := Some (num 0); cursor := None |})).
    reflexivity.
  - apply (list_limit_validation Demo.host Demo.self
             (Some {| prefix := None; limit := Some (num 1001); cursor := None |}));
      reflexivity.
  - apply (list_limit_validation Demo.host Demo.self None).
    split; reflexivity.
Defined.

(* ===================================================================== *)
(** ** Reading (C3, C9, C10) *)
(* ===================================================================== *)

Lemma get_valid (host : Host) (self : CloudflareKV.t) (k : JsString)
    (options : GetOptionsArg) (ty : JsString) (tr : Trace) :
  validateKey GET k = Normal tt ->
  validateGetOptions options = Normal ty ->
  CloudflareKV.get host self (VString k) options tr =
  ( andThen (transport host tr (valueRequest self k)) (fun res =>
      if status res =? 404 then Normal VNull
      else CloudflareKV.decodeBody ty res),
    tr ++ [valueRequest self k] ).
Proof.
  intros Hk Ho. unfold CloudflareKV.get.
  rewrite bind_lift, Hk, bind_lift, Ho, bind_fetch.
  fold (valueRequest self k).
  destruct (transport host tr (valueRequest self k)) as [res|e]; [|reflexivity].
  simpl andThen. destruct (status res =? 404); reflexivity.
Qed.

Lemma get_refused_options (host : Host) (self : CloudflareKV.t) (k : JsString)
    (options : GetOptionsArg) (e : Exn) :
  validateKey GET k = Normal tt ->
  validateGetOptions options = Throw e ->
  fails_before_io (CloudflareKV.get host self (VString k) options) e.
Proof.
  intros Hk Ho tr. unfold CloudflareKV.get.
  now rewrite bind_lift, Hk, bind_lift, Ho.
Qed.

(** [get] reads its options only through [validateGetOptions]. *)
Lemma get_options_ext (host : Host) (self : CloudflareKV.t) (key : JsValue)
    (o1 o2 : GetOptionsArg) :
  validateGetOptions o1 = validateGetOptions o2 ->
  (forall tr, CloudflareKV.get host self key o1 tr
              = CloudflareKV.get host self key o2 tr)
  /\ (forall tr, CloudflareKV.getWithMetadata host self key o1 tr
                 = CloudflareKV.getWithMetadata host self key o2 tr).
Proof.
  intros Heq.
  assert (Hget : forall tr, CloudflareKV.get host self key o1 tr
                            = CloudflareKV.get host self key o2 tr).
  { intros tr. unfold CloudflareKV.get. destruct key; try reflexivity.
    now rewrite Heq. }
  split; [exact Hget|].
  intros tr. unfold CloudflareKV.getWithMetadata, bind. now rewrite Hget.
Qed.

Lemma cacheTtl_check (ty : option JsString) (c : Number) :
  (num_truthy c && num_lt c (num 60)) = false ->
  validateGetOptions (OptionsRecord {| type := ty; cacheTtl := Some c |})
  = validateGetOptions (OptionsRecord {| type := ty; cacheTtl := None |}).
Proof.
  intros Hc. unfold validateGetOptions. simpl.
  replace (num_truthy c && (Number_isNaN c || num_lt c (num MIN_CACHE_TTL)))
    with false; [reflexivity|].
  destruct c as [| [|] | q];
    [reflexivity | discriminate Hc | reflexivity | symmetry; exact Hc].
Qed.

Lemma cacheTtl_refused (ty : option JsString) (c : Number) :
  (num_truthy c && num_lt c (num 60)) = true ->
  validateGetOptions (OptionsRecord {| type := ty; cacheTtl := Some c |})
  = Throw (cacheTtlTooSmall c).
Proof.
  intros Hc. unfold validateGetOptions. simpl.
  replace (num_truthy c && (Number_isNaN c || num_lt c (num MIN_CACHE_TTL)))
    with true; [reflexivity|].
  destruct c as [| [|] | q];
    [discriminate Hc | reflexivity | discriminate Hc | symmetry; exact Hc].
Qed.

(** C9, at the failing input: a cache directive of 0 is below the floor of
    60, yet get with [{cacheTtl: 0}] is not refused: the request is sent and
    the reply decoded. *)
Lemma get_cacheTtl_zero_accepted :
  num_lt (num 0) (num MIN_CACHE_TTL) = true
  /\ CloudflareKV.get Demo.host Demo.self (VString (js "k"))
       (OptionsRecord {| type := None; cacheTtl := Some (num 0) |}) []
     = (Normal (VString (js "hello")), [valueRequest Demo.self (js "k")]).
Proof. split; reflexivity. Qed.

(** What the check of the cache directive does on a valid key, for a
    directive [c] given in the options record: a non-zero number below 60
    makes get and getWithMetadata fail with the KV 400 error citing the
    floor of 60, before anything is sent; any other directive, 0 and [NaN]
    among them, leaves the call exactly as the call without it. *)
Theorem cacheTtl_only_floor_checked (host : Host) (self : CloudflareKV.t)
    (k : JsString) (ty : option JsString) (c : Number) :
  validateKey GET k = Normal tt ->
  ((num_truthy c && num_lt c (num 60)) = true ->
   fails_before_io
     (CloudflareKV.get host self (VString k)
        (OptionsRecord {| type := ty; cacheTtl := Some c |}))
     (cacheTtlTooSmall c)
   /\ fails_before_io
        (CloudflareKV.getWithMetadata host self (VString k)
           (OptionsRecord {| type := ty; cacheTtl := Some c |}))
        (cacheTtlTooSmall c)
   /\ InvalidArgument (cacheTtlTooSmall c))
  /\ ((num_truthy c && num_lt c (num 60)) = false ->
      (forall tr,
         CloudflareKV.get host self (VString k)
           (OptionsRecord {| type := ty; cacheTtl := Some c |}) tr
         = CloudflareKV.get host self (VString k)
             (OptionsRecord {| type := ty; cacheTtl := None |}) tr)
      /\ (forall tr,
            CloudflareKV.getWithMetadata host self (VString k)
              (OptionsRecord {| type := ty; cacheTtl := Some c |}) tr
            = CloudflareKV.getWithMetadata host self (VString k)
                (OptionsRecord {| type := ty; cacheTtl := None |}) tr)).
Proof.
  intros Hk. split.
  - intros Hc.
    assert (Hget : fails_before_io
              (CloudflareKV.get host self (VString k)
                 (OptionsRecord {| type := ty; cacheTtl := Some c |}))
              (cacheTtlTooSmall c)).
    { apply get_refused_options; [exact Hk | now apply cacheTtl_refused]. }
    split; [exact Hget | split; [|apply IA_400]].
    intros tr. unfold CloudflareKV.getWithMetadata. apply bind_throw, Hget.
  - intros Hc. apply get_options_ext. now apply cacheTtl_check.
Qed.

Lemma cacheTtl_only_floor_checked_witness :
  fails_before_io
    (CloudflareKV.get Demo.host Demo.self (VString (js "k"))
       (OptionsRecord {| type := Some (js "json"); cacheTtl := Some (num 30) |}))
    (cacheTtlTooSmall (num 30))
  /\ forall tr,
       CloudflareKV.get Demo.host Demo.self (VString (js "k"))
         (OptionsRecord {| type := Some (js "json"); cacheTtl := Some (num 0) |}) tr
       = CloudflareKV.get Demo.host Demo.self (VString (js "k"))
           (OptionsRecord {| type := Some (js "json"); cacheTtl := None |}) tr.
Proof.
  split.
  - apply (cacheTtl_only_floor_checked Demo.host Demo.self (js "k")
             (Some (js "json")) (num 30)); reflexivity.
  - apply (cacheTtl_only_floor_checked Demo.host Demo.self (js "k")
             (Some (js "json")) (num 0)); reflexivity.
Defined.

Lemma validateGetOptions_default (options : GetOptionsArg) :
  typeOmitted options ->
  validateGetOptions options = validateGetOptions (withType (js "text") options).
Proof. intros [-> | [c ->]]; reflexivity. Qed.

Lemma validateGetOptions_text (options : GetOptionsArg) :
  typeOmitted options -> cacheTtlAccepted options ->
  validateGetOptions options = Normal (js "text").
Proof.
  intros [-> | [c ->]] Hc; [reflexivity|].
  destruct c as [c|]; [|reflexivity].
  unfold cacheTtlAccepted in Hc. simpl in Hc.
  now rewrite (cacheTtl_check None c Hc).
Qed.

(** C10. When the options of get or getWithMetadata are omitted, or are a
    record without a type, the type is ['text']: [validateGetOptions]
    yields ['text'] (the cache directive, if any, passing its check), and a
    reply that is not a 404 is decoded with [res.text()], the body as a
    string.  get returns that string; getWithMetadata returns it as its
    value, after the metadata lookup, and fails as [res.text()] fails.
    Both calls are the calls with the type ['text'] spelled out. *)
Theorem get_type_defaults_to_text (host : Host) (self : CloudflareKV.t)
    (k : JsString) (options : GetOptionsArg) (tr : Trace) (r : Response) :
  typeOmitted options ->
  cacheTtlAccepted options ->
  validateKey GET k = Normal tt ->
  transport host tr (valueRequest self k) = Normal r ->
  status r <> 404 ->
  validateGetOptions options = Normal (js "text")
  /\ CloudflareKV.get host self (VString k) options tr
     = (andThen (text r) (fun s => Normal (VString s)),
        tr ++ [valueRequest self k])
  /\ CloudflareKV.getWithMetadata host self (VString k) options tr
     = match text r with
       | Normal s =>
           (andThen (transport host (tr ++ [valueRequest self k])
                       (metadataRequest self k)) (fun r2 =>
            andThen (json r2) (fun parsed =>
            andThen (get_prop parsed "result") (fun m =>
            Normal {| result_value := VString s; result_metadata := m |}))),
            (tr ++ [valueRequest self k]) ++ [metadataRequest self k])
       | Throw e => (Throw e, tr ++ [valueRequest self k])
       end
  /\ (forall tr', CloudflareKV.get host self (VString k) options tr'
                  = CloudflareKV.get host self (VString k)
                      (withType (js "text") options) tr')
  /\ (forall tr', CloudflareKV.getWithMetadata host self (VString k) options tr'
                  = CloudflareKV.getWithMetadata host self (VString k)
                      (withType (js "text") options) tr').
Proof.
  intros Hty Hc Hk Hr Hstatus.
  pose proof (validateGetOptions_text options Hty Hc) as Htext.
  assert (Hget : CloudflareKV.get host self (VString k) options tr
                 = (andThen (text r) (fun s => Normal (VString s)),
                    tr ++ [valueRequest self k])).
  { rewrite (get_valid host self k options (js "text") tr Hk Htext), Hr.
    simpl andThen. apply Z.eqb_neq in Hstatus. rewrite Hstatus. reflexivity. }
  split; [exact Htext | split; [exact Hget | split]].
  - unfold CloudflareKV.getWithMetadata.
    destruct (text r) as [s|e]; simpl andThen in Hget.
    + rewrite (bind_normal _ _ _ _ _ Hget).
      change (is_null (VString s)) with false. cbv iota.
      fold (metadataRequest self k). rewrite bind_fetch.
      destruct (transport host (tr ++ [valueRequest self k])
                  (metadataRequest self k)) as [r2|e]; [|reflexivity].
      simpl andThen. rewrite bind_lift.
      destruct (json r2) as [parsed|e]; [|reflexivity].
      simpl andThen. rewrite bind_lift.
      destruct (get_prop parsed "result"); reflexivity.
    + now apply bind_throw.
  - apply get_options_ext. now apply validateGetOptions_default.
Qed.

Lemma get_type_defaults_to_text_witness :
  validateGetOptions (OptionsRecord {| type := None; cacheTtl := Some (num 60) |})
  = Normal (js "text")
  /\ CloudflareKV.get Demo.host Demo.self (VString (js "k"))
       (OptionsRecord {| type := None; cacheTtl := Some (num 60) |}) []
     = (Normal (VString (js "hello")), [valueRequest Demo.self (js "k")])
  /\ CloudflareKV.getWithMetadata Demo.host Demo.self (VString (js "k"))
       OptionsOmitted []
     = (Normal {| result_value := VString (js "hello");
                  result_metadata := VObject [(js "tag", VString (js "m"))] |},
        [valueRequest Demo.self (js "k"); metadataRequest Demo.self (js "k")]).
Proof.
  assert (Hs : status Demo.hello <> 404) by (vm_compute; discriminate).
  destruct (get_type_defaults_to_text Demo.host Demo.self (js "k")
              (OptionsRecord {| type := None; cacheTtl := Some (num 60) |})
              [] Demo.hello (or_intror (ex_intro _ _ eq_refl))
              eq_refl eq_refl eq_refl Hs) as (H1 & H2 & _).
  destruct (get_type_defaults_to_text Demo.host Demo.self (js "k")
              OptionsOmitted [] Demo.hello (or_introl eq_refl)
              I eq_refl eq_refl Hs) as (_ & _ & H3 & _).
  split; [exact H1 | split; [exact H2 | exact H3]].
Defined.

(** C3, the claim fails: the value lookup of the key [nothing] is answered
    with status 200 and the JSON body [null]; read as ['json'] the value is
    [null], and getWithMetadata returns without a second request. *)
Lemma getWithMetadata_null_value_skips_metadata :
  transport Demo.host [] (valueRequest Demo.self (js "nothing"))
  = Normal Demo.nothing
  /\ status Demo.nothing = 200
  /\ CloudflareKV.getWithMetadata Demo.host Demo.self (VString (js "nothing"))
       (OptionsType (js "json")) []
     = (Normal {| result_value := VNull; result_metadata := VNull |},
        [valueRequest Demo.self (js "nothing")]).
Proof. repeat split. Qed.

(** C3, amended. For a valid key and valid options, when the value lookup
    is answered with 404, get returns [null] without throwing and
    getWithMetadata returns [{value: null, metadata: null}], the value
    lookup being the only request.  When the answer is not a 404 and the
    decoded value is not [null], getWithMetadata sends exactly one more
    request, to [/metadata/{key}], and the metadata is the [result]
    property of its JSON body; when the decoded value is [null] it sends no
    second request and returns [{value: null, metadata: null}]. *)
Theorem getWithMetadata_absent_and_present (host : Host) (self : CloudflareKV.t)
    (k : JsString) (options : GetOptionsArg) (ty : JsString) (tr : Trace)
    (r : Response) :
  validateKey GET k = Normal tt ->
  validateGetOptions options = Normal ty ->
  transport host tr (valueRequest self k) = Normal r ->
  (status r = 404 ->
   CloudflareKV.get host self (VString k) options tr
   = (Normal VNull, tr ++ [valueRequest self k])
   /\ CloudflareKV.getWithMetadata host self (VString k) options tr
      = (Normal {| result_value := VNull; result_metadata := VNull |},
         tr ++ [valueRequest self k]))
  /\ (forall v, status r <> 404 -> CloudflareKV.decodeBody ty r = Normal v ->
      CloudflareKV.get host self (VString k) options tr
      = (Normal v, tr ++ [valueRequest self k])
      /\ (is_null v = true ->
          CloudflareKV.getWithMetadata host self (VString k) options tr
          = (Normal {| result_value := v; result_metadata := VNull |},
             tr ++ [valueRequest self k]))
      /\ (is_null v = false ->
          CloudflareKV.getWithMetadata host self (VString k) options tr
          = (andThen (transport host (tr ++ [valueRequest self k])
                        (metadataRequest self k)) (fun r2 =>
             andThen (json r2) (fun parsed =>
             andThen (get_prop parsed "result") (fun m =>
             Normal {| result_value := v; result_metadata := m |}))),
             (tr ++ [valueRequest self k]) ++ [metadataRequest self k]))).
Proof.
  intros Hk Ho Hr.
  pose proof (get_valid host self k options ty tr Hk Ho) as Hget.
  rewrite Hr in Hget. simpl andThen in Hget.
  split.
  - intros H404. rewrite H404 in Hget. simpl in Hget.
    split; [exact Hget|].
    unfold CloudflareKV.getWithMetadata.
    rewrite (bind_normal _ _ _ _ _ Hget). reflexivity.
  - intros v Hstatus Hv. apply Z.eqb_neq in Hstatus.
    rewrite Hstatus, Hv in Hget.
    split; [exact Hget | split]; intros Hnull;
      unfold CloudflareKV.getWithMetadata;
      rewrite (bind_normal _ _ _ _ _ Hget), Hnull; [reflexivity|].
    fold (metadataRequest self k). rewrite bind_fetch.
    destruct (transport host (tr ++ [valueRequest self k])
                (metadataRequest self k)) as [r2|e]; [|reflexivity].
    simpl andThen. rewrite bind_lift.
    destruct (json r2) as [parsed|e]; [|reflexivity].
    simpl andThen. rewrite bind_lift.
    destruct (get_prop parsed "result"); reflexivity.
Qed.

Lemma getWithMetadata_absent_and_present_witness :
  CloudflareKV.getWithMetadata Demo.host Demo.self (VString (js "missing"))
    OptionsOmitted []
  = (Normal {| result_value := VNull; result_metadata := VNull |},
     [] ++ [valueRequest Demo.self (js "missing")]).
Proof.
  destruct (getWithMetadata_absent_and_present Demo.host Demo.self
              (js "missing") OptionsOmitted (js "text") [] Demo.notFound
              eq_refl eq_refl eq_refl) as [H404 _].
  apply H404. reflexivity.
Defined.

(* ===================================================================== *)
(** ** Construction and headers (C7) *)
(* ===================================================================== *)

Section SendsOnlyWith.
Context {A B : Type} (hd : gmap JsString JsString).

Lemma sends_lift (c : Completion A) : sends_only_with hd (lift c).
Proof. intros tr. exists []. split; [apply eq_sym, app_nil_r | constructor]. Qed.

Lemma sends_ret (a : A) : sends_only_with hd (ret a).
Proof. apply sends_lift. Qed.

Lemma sends_throw (e : Exn) : sends_only_with hd (@throw A e).
Proof. apply sends_lift. Qed.

Lemma sends_bind (m : Async A) (k : A -> Async B) :
  sends_only_with hd m -> (forall a, sends_only_with hd (k a)) ->
  sends_only_with hd (bind m k).
Proof.
  intros Hm Hk tr. destruct (Hm tr) as (reqs & Htr & Hall).
  unfold bind. destruct (m tr) as [[a|e] tr']; simpl in Htr; subst tr'.
  - destruct (Hk a (tr ++ reqs)) as (reqs' & Htr' & Hall').
    exists (reqs ++ reqs'). split.
    + rewrite Htr'. apply eq_sym, app_assoc.
    + apply Forall_app. now split.
  - exists reqs. now split.
Qed.
End SendsOnlyWith.

Lemma sends_fetch (host : Host) (r : Request) :
  sends_only_with (req_headers r) (fetch host r).
Proof. intros tr. exists [r]. split; [reflexivity | now repeat constructor]. Qed.

Create HintDb sends.
#[local] Hint Resolve sends_lift sends_ret sends_throw : sends.

Lemma operations_send_own_headers (host : Host) (self : CloudflareKV.t) :
  all_operations_send_with host self (CloudflareKV.headers self).
Proof.
  assert (Hget : forall key o,
             sends_only_with (CloudflareKV.headers self)
               (CloudflareKV.get host self key o)).
  { intros key o. unfold CloudflareKV.get.
    destruct key; auto with sends.
    apply sends_bind; [auto with sends | intros _].
    apply sends_bind; [auto with sends | intros ty].
    apply sends_bind; [apply (sends_fetch host (CloudflareKV.keyRequest _ _ _ _)) |].
    intros res. destruct (status res =? 404); auto with sends. }
  split; [exact Hget | split; [|split; [|split]]].
  - intros key o. unfold CloudflareKV.getWithMetadata.
    apply sends_bind; [apply Hget | intros v].
    destruct (is_null v); [auto with sends|].
    apply sends_bind; [apply (sends_fetch host (CloudflareKV.keyRequest _ _ _ _)) |].
    intros res. apply sends_bind; [auto with sends | intros parsed].
    apply sends_bind; auto with sends.
  - intros key v o. unfold CloudflareKV.put.
    destruct key; auto with sends.
    apply sends_bind; [auto with sends | intros _].
    apply sends_bind; [auto with sends | intros stored].
    apply sends_bind; [auto with sends | intros e].
    apply sends_bind; [auto with sends | intros _].
    apply sends_bind; [auto with sends | intros b].
    apply sends_bind; [apply (sends_fetch host (CloudflareKV.bulkRequest _ _)) |].
    auto with sends.
  - intros key. unfold CloudflareKV.delete.
    destruct key; auto with sends.
    apply sends_bind; [auto with sends | intros _].
    apply sends_bind; [apply (sends_fetch host (CloudflareKV.keyRequest _ _ _ _)) |].
    auto with sends.
  - intros o. unfold CloudflareKV.list.
    apply sends_bind; [auto with sends | intros _].
    apply sends_bind; [auto with sends | intros _].
    apply sends_bind;
      [apply (sends_fetch host (CloudflareKV.keysRequest _ _ _ _)) | intros r].
    repeat (apply sends_bind; [auto with sends | intro]).
    auto with sends.
Qed.

Ltac js_neq :=
  let H := fresh in intros H; vm_compute in H; discriminate H.

Lemma constructed_headers (host : Host) (options : KVOptions)
    (c : CloudflareKV.t) :
  CloudflareKV.constructor host options = Normal c ->
  forall name, CloudflareKV.headers c !! name = headerOf options name.
Proof.
  unfold CloudflareKV.constructor, when, andThen.
  destruct (negb (str_truthy (account_id options))
            || negb (str_truthy (namespace_id options))); [discriminate|].
  destruct (negb (optstr_truthy (api_email options))
            && negb (optstr_truthy (api_key options))
            && negb (optstr_truthy (api_token options))); [discriminate|].
  intros [= <-] name. simpl CloudflareKV.headers.
  unfold headerOf, CloudflareKV.initial_headers.
  assert (js "authorization" <> js "x-auth-key") by js_neq.
  assert (js "authorization" <> js "x-api-email") by js_neq.
  assert (js "authorization" <> js "content-type") by js_neq.
  assert (js "x-auth-key" <> js "x-api-email") by js_neq.
  assert (js "x-auth-key" <> js "content-type") by js_neq.
  assert (js "x-api-email" <> js "content-type") by js_neq.
  destruct (optstr_truthy (api_token options));
    destruct (optstr_truthy (api_email options) && optstr_truthy (api_key options));
    repeat case_decide; subst; simplify_map_eq; try done.
Qed.

(** C7, the claim fails: with a token and an email/key pair the client
    carries the headers of both schemes, and with an email alone, no
    scheme being complete, construction succeeds with the content type as
    only header. *)
Lemma constructor_not_exactly_one_scheme :
  (exists c, CloudflareKV.constructor Demo.host bothSchemes = Normal c
             /\ CloudflareKV.headers c !! js "authorization" = Some (js "Bearer tok")
             /\ CloudflareKV.headers c !! js "x-api-email" = Some (js "me@example.org")
             /\ CloudflareKV.headers c !! js "x-auth-key" = Some (js "key"))
  /\ (exists c, CloudflareKV.constructor Demo.host emailOnly = Normal c
                /\ CloudflareKV.headers c = CloudflareKV.initial_headers).
Proof.
  split; eexists; (split; [reflexivity|]).
  - repeat split; vm_compute; reflexivity.
  - reflexivity.
Qed.

(** C7, amended. Construction fails when [account_id] or [namespace_id]
    is empty, and fails when none of [api_email], [api_key] and [api_token]
    is given.  When it succeeds, both identifiers are non-empty, one of the
    three credential fields is given, and the headers are exactly: the JSON
    content type; the bearer authorization if a token is given; the
    [x-api-email] / [x-auth-key] pair if both email and key are given (the
    two schemes side by side when all three are given).  Every request of
    every operation carries this header set. *)
Theorem constructor_fixes_headers (host : Host) (options : KVOptions) :
  ((str_truthy (account_id options) && str_truthy (namespace_id options)) = false ->
   CloudflareKV.constructor host options
   = Throw (Error [Lit "Missing account_id or namespace_id"]))
  /\ ((str_truthy (account_id options) && str_truthy (namespace_id options)) = true ->
      (optstr_truthy (api_email options) || optstr_truthy (api_key options)
       || optstr_truthy (api_token options)) = false ->
      CloudflareKV.constructor host options
      = Throw (Error [Lit "Missing api_email, api_key or api_token"]))
  /\ (forall c, CloudflareKV.constructor host options = Normal c ->
      (str_truthy (account_id options) && str_truthy (namespace_id options)) = true
      /\ (optstr_truthy (api_email options) || optstr_truthy (api_key options)
          || optstr_truthy (api_token options)) = true
      /\ (forall name, CloudflareKV.headers c !! name = headerOf options name)
      /\ all_operations_send_with host c (CloudflareKV.headers c)).
Proof.
  split; [|split].
  - intros Hid. unfold CloudflareKV.constructor.
    rewrite <- negb_andb, Hid. reflexivity.
  - intros Hid Hcred. unfold CloudflareKV.constructor.
    rewrite <- negb_andb, Hid. cbv beta iota delta [when andThen].
    rewrite <- !negb_orb, Hcred. reflexivity.
  - intros c Hc. split; [|split; [|split]].
    + unfold CloudflareKV.constructor in Hc. rewrite <- negb_andb in Hc.
      destruct (str_truthy (account_id options) && str_truthy (namespace_id options));
        [reflexivity | discriminate].
    + unfold CloudflareKV.constructor in Hc. rewrite <- !negb_orb in Hc.
      destruct (optstr_truthy (api_email options) || optstr_truthy (api_key options)
                || optstr_truthy (api_token options)); [reflexivity|].
      destruct (negb (str_truthy (account_id options))
                || negb (str_truthy (namespace_id options))); discriminate.
    + now apply (constructed_headers host).
    + apply operations_send_own_headers.
Qed.

Lemma constructor_fixes_headers_witness :
  CloudflareKV.constructor Demo.host
    {| api_email := None; api_key := None; api_token := Some (js "tok");
       account_id := []; namespace_id := js "ns" |}
  = Throw (Error [Lit "Missing account_id or namespace_id"]).
Proof.
  apply (constructor_fixes_headers Demo.host
           {| api_email := None; api_key := None; api_token := Some (js "tok");
              account_id := []; namespace_id := js "ns" |}).
  reflexivity.
Defined.

(* ===================================================================== *)
(** ** Writing (C1, C5, C6) *)
(* ===================================================================== *)

(** [put] after its validations: one request with the serialised batch. *)
Lemma put_valid (host : Host) (self : CloudflareKV.t) (k : JsString)
    (value : JsValue) (options : option KVPutOptions) (tr : Trace)
    (stored : option JsString) (e : option Number) (body_ : option JsString) :
  validateKey PUT k = Normal tt ->
  CloudflareKV.storedValue host value = Normal stored ->
  CloudflareKV.validateExpiration host (putOptions options) = Normal e ->
  CloudflareKV.validateSizes host stored (putOptions options) = Normal tt ->
  CloudflareKV.stringifyBody host
    (CloudflareKV.bulkPayload e
       (normaliseInt (expirationTtl (putOptions options)))
       (VString k) stored (putOptions options)) = Normal body_ ->
  CloudflareKV.put host self (VString k) value options tr
  = putSent host self body_ tr.
Proof.
  intros Hk Hv He Hs Hb. unfold CloudflareKV.put.
  fold (putOptions options).
  rewrite bind_lift, Hk, bind_lift, Hv, bind_lift, He, bind_lift, Hs.
  rewrite bind_lift, Hb, bind_fetch. unfold putSent.
  destruct (transport host tr (CloudflareKV.bulkRequest self body_));
    reflexivity.
Qed.

(** [put] stops at the first validation that throws. *)
Lemma put_refused_expiration (host : Host) (self : CloudflareKV.t)
    (k : JsString) (value : JsValue) (options : option KVPutOptions)
    (stored : option JsString) (e : Exn) :
  validateKey PUT k = Normal tt ->
  CloudflareKV.storedValue host value = Normal stored ->
  CloudflareKV.validateExpiration host (putOptions options) = Throw e ->
  fails_before_io (CloudflareKV.put host self (VString k) value options) e.
Proof.
  intros Hk Hv He tr. unfold CloudflareKV.put. fold (putOptions options).
  now rewrite bind_lift, Hk, bind_lift, Hv, bind_lift, He.
Qed.

Lemma put_refused_size (host : Host) (self : CloudflareKV.t)
    (k : JsString) (value : JsValue) (options : option KVPutOptions)
    (stored : option JsString) (x : option Number) (e : Exn) :
  validateKey PUT k = Normal tt ->
  CloudflareKV.storedValue host value = Normal stored ->
  CloudflareKV.validateExpiration host (putOptions options) = Normal x ->
  CloudflareKV.validateSizes host stored (putOptions options) = Throw e ->
  fails_before_io (CloudflareKV.put host self (VString k) value options) e.
Proof.
  intros Hk Hv He Hs tr. unfold CloudflareKV.put. fold (putOptions options).
  now rewrite bind_lift, Hk, bind_lift, Hv, bind_lift, He, bind_lift, Hs.
Qed.

(** *** The value (C6) *)

Lemma storedValue_object (host : Host) (value : JsValue) (s : JsString) :
  typeof value = TyObject ->
  JSON_stringify host value = SString s ->
  CloudflareKV.storedValue host value = Normal (Some s).
Proof.
  intros Hty Hs. unfold CloudflareKV.storedValue.
  destruct value; try discriminate Hty; simpl; now rewrite Hs.
Qed.

(** The values that [put] refuses are those that are neither a string nor
    an object for [typeof]. *)
Lemma storedValue_refused (host : Host) (value : JsValue) :
  typeof value <> TyString -> typeof value <> TyObject ->
  exists m, CloudflareKV.storedValue host value = Throw (TypeError m)
            /\ InvalidArgument (TypeError m).
Proof.
  intros Hs Ho. destruct value; try (now elim Hs); try (now elim Ho);
    eexists; (split; [reflexivity | constructor]).
Qed.

(** C6, at the failing input: a binary buffer, a byte view or a stream
    given as value is an object for [typeof], so [put] does not throw its
    "only strings" [TypeError]: it stores what [JSON.stringify] makes of
    the value and sends the request. *)
Theorem put_accepts_binary_values (host : Host) (self : CloudflareKV.t)
    (k : JsString) (value : JsValue) (options : option KVPutOptions)
    (tr : Trace) (s : JsString) (e : option Number) (body_ : option JsString) :
  binaryValue value ->
  validateKey PUT k = Normal tt ->
  JSON_stringify host value = SString s ->
  CloudflareKV.validateExpiration host (putOptions options) = Normal e ->
  CloudflareKV.validateSizes host (Some s) (putOptions options) = Normal tt ->
  CloudflareKV.stringifyBody host
    (CloudflareKV.bulkPayload e
       (normaliseInt (expirationTtl (putOptions options)))
       (VString k) (Some s) (putOptions options)) = Normal body_ ->
  CloudflareKV.storedValue host value = Normal (Some s)
  /\ CloudflareKV.put host self (VString k) value options tr
     = putSent host self body_ tr.
Proof.
  intros Hbin Hk Hs He Hsz Hb.
  assert (Hv : CloudflareKV.storedValue host value = Normal (Some s)).
  { apply storedValue_object; [|exact Hs].
    destruct value; try contradiction; reflexivity. }
  split; [exact Hv|].
  now apply (put_valid host self k value options tr (Some s) e body_).
Qed.

Lemma put_accepts_binary_values_witness :
  CloudflareKV.storedValue Demo.host (VArrayBuffer [1; 2; 3]%N)
  = Normal (Some (js "{}"))
  /\ CloudflareKV.put Demo.host Demo.self (VString (js "k"))
       (VArrayBuffer [1; 2; 3]%N) None []
     = putSent Demo.host Demo.self (Some (js "[{}]")) [].
Proof.
  apply (put_accepts_binary_values Demo.host Demo.self (js "k")
           (VArrayBuffer [1; 2; 3]%N) None [] (js "{}") None
           (Some (js "[{}]")));
    [exact I | reflexivity ..].
Defined.

(** *** Sizes (C5) *)

(** The size checks compare [.length], the number of UTF-16 code units. *)
Lemma validateSizes_value_too_long (host : Host) (s : JsString)
    (options : KVPutOptions) :
  MAX_VALUE_SIZE < Z.of_nat (length s) ->
  CloudflareKV.validateSizes host (Some s) options
  = Throw (valueTooLarge (Z.of_nat (length s)))
  /\ RequestTooLarge (valueTooLarge (Z.of_nat (length s))).
Proof.
  intros Hlen. split; [|apply RTL_413].
  unfold CloudflareKV.validateSizes. simpl andThen.
  destruct (Z.gtb_spec (Z.of_nat (length s)) MAX_VALUE_SIZE); [reflexivity | lia].
Qed.

Lemma validateSizes_metadata_too_long (host : Host) (s m : JsString)
    (options : KVPutOptions) :
  Z.of_nat (length s) <= MAX_VALUE_SIZE ->
  truthy (metadata options) = true ->
  JSON_stringify host (metadata options) = SString m ->
  MAX_METADATA_SIZE < Z.of_nat (length m) ->
  CloudflareKV.validateSizes host (Some s) options
  = Throw (metadataTooLarge (Z.of_nat (length m)))
  /\ RequestTooLarge (metadataTooLarge (Z.of_nat (length m))).
Proof.
  intros Hlen Ht Hm Hmlen. split; [|apply RTL_413].
  unfold CloudflareKV.validateSizes. simpl andThen.
  destruct (Z.gtb_spec (Z.of_nat (length s)) MAX_VALUE_SIZE); [lia|].
  cbv beta iota delta [when andThen]. rewrite Ht, Hm.
  destruct (Z.gtb_spec (Z.of_nat (length m)) MAX_METADATA_SIZE); [|lia].
  destruct (Z.eqb_spec (Z.of_nat (length m)) 0);
    [unfold MAX_METADATA_SIZE in *; lia | reflexivity].
Qed.

Lemma validateSizes_within (host : Host) (s m : JsString)
    (options : KVPutOptions) :
  Z.of_nat (length s) <= MAX_VALUE_SIZE ->
  (JSON_stringify host (metadata options) = SString m
   /\ Z.of_nat (length m) <= MAX_METADATA_SIZE
   \/ truthy (metadata options) = false) ->
  CloudflareKV.validateSizes host (Some s) options = Normal tt.
Proof.
  intros Hlen Hmeta.
  unfold CloudflareKV.validateSizes. simpl andThen.
  destruct (Z.gtb_spec (Z.of_nat (length s)) MAX_VALUE_SIZE); [lia|].
  cbv beta iota delta [when andThen].
  destruct (truthy (metadata options)) eqn:Ht.
  - destruct Hmeta as [[Hm Hmlen] | Hf]; [|discriminate].
    rewrite Hm.
    destruct (Z.gtb_spec (Z.of_nat (length m)) MAX_METADATA_SIZE); [lia|].
    now rewrite andb_false_r.
  - reflexivity.
Qed.

(** C5, at the failing input: metadata whose serialisation [m] has at most
    1024 code units is accepted however many bytes [m] takes; with
    characters outside ASCII the serialisation is longer than 1024 bytes
    and the request is sent all the same. *)
Theorem put_metadata_measured_in_code_units (host : Host)
    (self : CloudflareKV.t) (k s m : JsString) (meta : JsValue)
    (body_ : option JsString) (tr : Trace) :
  validateKey PUT k = Normal tt ->
  Z.of_nat (length s) <= MAX_VALUE_SIZE ->
  JSON_stringify host meta = SString m ->
  Z.of_nat (length m) <= MAX_METADATA_SIZE ->
  MAX_METADATA_SIZE < utf8_byteLength m ->
  CloudflareKV.stringifyBody host
    (CloudflareKV.bulkPayload None None (VString k) (Some s)
       {| expiration := VUndefined; expirationTtl := VUndefined;
          metadata := meta |}) = Normal body_ ->
  CloudflareKV.put host self (VString k) (VString s)
    (Some {| expiration := VUndefined; expirationTtl := VUndefined;
             metadata := meta |}) tr
  = putSent host self body_ tr.
Proof.
  intros Hk Hlen Hm Hmlen _ Hb.
  apply (put_valid host self k (VString s) _ tr (Some s) None body_);
    [exact Hk | reflexivity | reflexivity | | exact Hb].
  apply (validateSizes_within host s m); [exact Hlen|].
  left. split; assumption.
Qed.

Lemma put_metadata_measured_in_code_units_witness :
  CloudflareKV.put Demo.host Demo.self (VString (js "k")) (VString (js "v"))
    (Some {| expiration := VUndefined; expirationTtl := VUndefined;
             metadata := VString (repeat 233%N 600) |}) []
  = putSent Demo.host Demo.self (Some (js "[{}]")) [].
Proof.
  apply (put_metadata_measured_in_code_units Demo.host Demo.self
           (js "k") (js "v") ([34%N] ++ repeat 233%N 600 ++ [34%N])
           (VString (repeat 233%N 600)) (Some (js "[{}]")) []).
  - reflexivity.
  - vm_compute. discriminate.
  - reflexivity.
  - vm_compute. discriminate.
  - vm_compute. reflexivity.
  - reflexivity.
Defined.

(** *** Expiration (C1) *)

Lemma num_lt_int (a b : Z) : num_lt (num a) (num b) = (a <? b).
Proof.
  simpl. apply eq_true_iff_eq.
  rewrite Qlt_bool_iff, Z.ltb_lt, <- Zlt_Qlt. reflexivity.
Qed.

Lemma num_le_int (a b : Z) : num_le (num a) (num b) = (a <=? b).
Proof.
  unfold num_le. change (negb (num_lt (num b) (num a)) = (a <=? b)).
  rewrite num_lt_int, Z.leb_antisym. reflexivity.
Qed.

Lemma num_truthy_int (a : Z) : num_truthy (num a) = negb (a =? 0).
Proof.
  simpl. f_equal. apply eq_true_iff_eq.
  rewrite Qeq_bool_iff, Z.eqb_eq. unfold Qeq. simpl. lia.
Qed.

Lemma Qred_inject_Z (z : Z) : Qred (inject_Z z) = inject_Z z.
Proof. apply Qred_identity. simpl. apply Z.gcd_1_r. Qed.

Lemma num_add_int (a b : Z) : num_add (num a) (num b) = num (a + b).
Proof.
  unfold num, num_add. f_equal.
  rewrite <- (Qred_inject_Z (a + b)). apply Qred_complete.
  rewrite inject_Z_plus. apply Qeq_refl.
Qed.

Lemma Math_round_int (z : Z) : Math_round (num z) = num z.
Proof.
  unfold Math_round, num. do 2 f_equal.
  unfold Qfloor, Qplus, inject_Z. simpl.
  change (Z.pos (1 * 2)) with 2.
  replace (z * 2 + 1 * 1) with (1 + z * 2) by lia.
  rewrite Z.div_add by lia. reflexivity.
Qed.

Lemma now_seconds (host : Host) : CloudflareKV.now host = num (unixSeconds host).
Proof.
  unfold CloudflareKV.now, normaliseInt, as_number, num_div_int, Math_round, num.
  do 2 f_equal. unfold unixSeconds.
  transitivity (Qfloor ((2 * Date_getTime host + 1000) # 2000)).
  - apply Qfloor_comp. rewrite Qred_correct.
    unfold Qeq, Qdiv, Qmult, Qplus, Qinv, inject_Z. simpl. lia.
  - unfold Qfloor.
    replace (2 * Date_getTime host + 1000) with (2 * (Date_getTime host + 500)) by lia.
    change (Z.pos 2000) with (2 * 1000).
    apply Z.div_mul_cancel_l; lia.
Qed.

(** The rounded clock is within half a second of the clock. *)
Lemma unixSeconds_close (host : Host) :
  Date_getTime host - 500 < 1000 * unixSeconds host <= Date_getTime host + 500.
Proof.
  unfold unixSeconds.
  pose proof (Z.mod_pos_bound (Date_getTime host + 500) 1000 ltac:(lia)).
  pose proof (Z.div_mod (Date_getTime host + 500) 1000 ltac:(lia)).
  lia.
Qed.

(** Normalisation: numbers are rounded, strings are parsed in base 10,
    anything else is [undefined]. *)
Example normaliseInt_rounds :
  normaliseInt (VNumber (Finite (1199 # 20))) = Some (num 60)
  /\ normaliseInt (VNumber (Finite (119 # 2))) = Some (num 60)
  /\ normaliseInt (VNumber (Finite (-5 # 2))) = Some (num (-2)).
Proof. repeat split. Qed.

Example normaliseInt_parses :
  normaliseInt (VString (js "3600")) = Some (num 3600)
  /\ normaliseInt (VString (js "  -12abc")) = Some (num (-12))
  /\ normaliseInt (VString (js "abc")) = Some NaN
  /\ normaliseInt (VBoolean true) = None
  /\ normaliseInt VUndefined = None.
Proof. repeat split. Qed.

(** What the TTL block does for an integer TTL other than 0: out of the
    signed 32-bit range, not positive, below 60, or accepted with the
    expiration [now + ttl]. *)
Lemma validateExpiration_ttl (host : Host) (options : KVPutOptions) (t : Z) :
  expirationTtl options = VNumber (num t) -> t <> 0 ->
  CloudflareKV.validateExpiration host options =
  if (t <? MIN_EXPIRATION) || (t >? MAX_EXPIRATION)
  then Throw CloudflareKV.outOfRange
  else if t <=? 0 then Throw (ttlNotPositive (VNumber (num t)))
  else if t <? 60 then Throw (ttlBelowFloor (VNumber (num t)))
  else Normal (Some (num (unixSeconds host + t))).
Proof.
  intros Hraw Hnz. unfold CloudflareKV.validateExpiration.
  assert (Hn : normaliseInt (VNumber (num t)) = Some (num t))
    by (unfold normaliseInt; now rewrite Math_round_int).
  rewrite Hraw, Hn.
  unfold optnum_truthy, as_number. rewrite num_truthy_int.
  apply Z.eqb_neq in Hnz. rewrite Hnz. simpl negb. cbv iota.
  unfold num_gt. rewrite !num_lt_int, num_le_int, now_seconds, num_add_int.
  rewrite (Z.gtb_ltb t MAX_EXPIRATION).
  destruct (t <? MIN_EXPIRATION); [reflexivity|].
  destruct (MAX_EXPIRATION <? t); [reflexivity|].
  simpl orb. cbv beta iota delta [when andThen Number_isNaN num].
  simpl orb.
  destruct (t <=? 0); [reflexivity|].
  change MIN_CACHE_TTL with 60.
  destruct (t <? 60); reflexivity.
Qed.

(** An integer TTL from 60 to 2^31 - 1: the request body is the batch with
    [expiration = now + ttl] and [expiration_ttl = ttl]. *)
Lemma put_ttl_valid (host : Host) (self : CloudflareKV.t) (k s : JsString)
    (t : Z) (meta : JsValue) (body_ : option JsString) (tr : Trace) :
  validateKey PUT k = Normal tt ->
  60 <= t <= MAX_EXPIRATION ->
  CloudflareKV.validateSizes host (Some s)
    {| expiration := VUndefined; expirationTtl := VNumber (num t);
       metadata := meta |} = Normal tt ->
  CloudflareKV.stringifyBody host
    (VArray
       [VObject
          [(js "expiration", VNumber (num (unixSeconds host + t)));
           (js "expiration_ttl", VNumber (num t));
           (js "key", VString k);
           (js "value", VString s);
           (js "metadata", meta)]]) = Normal body_ ->
  CloudflareKV.put host self (VString k) (VString s)
    (Some {| expiration := VUndefined; expirationTtl := VNumber (num t);
             metadata := meta |}) tr
  = putSent host self body_ tr.
Proof.
  intros Hk Ht Hs Hb.
  apply (put_valid host self k (VString s) _ tr (Some s)
           (Some (num (unixSeconds host + t))) body_);
    [exact Hk | reflexivity | | exact Hs | ].
  - unfold putOptions, default.
    rewrite (validateExpiration_ttl host _ t) by (reflexivity || lia).
    unfold MIN_EXPIRATION, MAX_EXPIRATION in *.
    destruct (Z.ltb_spec t (-2147483648)); [lia|].
    destruct (Z.gtb_spec t 2147483647); [lia|].
    destruct (Z.leb_spec t 0); [lia|].
    destruct (Z.ltb_spec t 60); [lia | reflexivity].
  - unfold putOptions, default, CloudflareKV.bulkPayload. simpl expirationTtl.
    unfold normaliseInt. rewrite Math_round_int. exact Hb.
Qed.

(** C1, at the failing input: a TTL of 0 is not a positive integer and is
    below 60, yet it is not refused; the TTL block is skipped, no
    expiration is computed, and the request is sent with
    [expiration_ttl: 0]. *)
Theorem put_expirationTtl_zero_is_sent (host : Host) (self : CloudflareKV.t)
    (k s : JsString) (body_ : option JsString) (tr : Trace) :
  validateKey PUT k = Normal tt ->
  Z.of_nat (length s) <= MAX_VALUE_SIZE ->
  CloudflareKV.stringifyBody host
    (CloudflareKV.bulkPayload None (Some (num 0)) (VString k) (Some s)
       {| expiration := VUndefined; expirationTtl := VNumber (num 0);
          metadata := VUndefined |}) = Normal body_ ->
  CloudflareKV.validateExpiration host
    {| expiration := VUndefined; expirationTtl := VNumber (num 0);
       metadata := VUndefined |} = Normal None
  /\ CloudflareKV.put host self (VString k) (VString s)
       (Some {| expiration := VUndefined; expirationTtl := VNumber (num 0);
                metadata := VUndefined |}) tr
     = putSent host self body_ tr.
Proof.
  intros Hk Hlen Hb. split; [reflexivity|].
  apply (put_valid host self k (VString s) _ tr (Some s) None body_);
    [exact Hk | reflexivity | reflexivity | | exact Hb].
  apply (validateSizes_within host s []); [exact Hlen | now right].
Qed.

Lemma put_expirationTtl_zero_is_sent_witness :
  CloudflareKV.validateExpiration Demo.host
    {| expiration := VUndefined; expirationTtl := VNumber (num 0);
       metadata := VUndefined |} = Normal None
  /\ CloudflareKV.put Demo.host Demo.self (VString (js "k")) (VString (js "v"))
       (Some {| expiration := VUndefined; expirationTtl := VNumber (num 0);
                metadata := VUndefined |}) []
     = putSent Demo.host Demo.self (Some (js "[{}]")) [].
Proof.
  apply (put_expirationTtl_zero_is_sent Demo.host Demo.self (js "k") (js "v")
           (Some (js "[{}]")) []).
  - reflexivity.
  - vm_compute. discriminate.
  - reflexivity.
Defined.

(* ===================================================================== *)
(** ** Further properties: keys *)
(* ===================================================================== *)

Lemma validateKey_accepted_inv (method : Method) (k : JsString) :
  validateKey method k = Normal tt ->
  ~ reservedKey k /\ utf8_byteLength k <= MAX_KEY_SIZE.
Proof.
  intros Hok. split.
  - intros Hres. destruct (validateKey_reserved method k Hres) as [m Hm].
    rewrite Hm in Hok. discriminate.
  - destruct (Z.le_gt_cases (utf8_byteLength k) MAX_KEY_SIZE) as [H|H];
      [exact H|].
    rewrite (validateKey_too_long method k H) in Hok. discriminate.
Qed.

Lemma validateKey_not_reserved (method : Method) (k : JsString) :
  ~ reservedKey k -> utf8_byteLength k <= MAX_KEY_SIZE ->
  validateKey method k = Normal tt.
Proof.
  intros Hres Hlen. unfold reservedKey in Hres.
  apply validateKey_ok; [| | | exact Hlen]; intros ->; apply Hres; auto.
Qed.

(** [validateKey] accepts exactly the keys that are not reserved and whose
    UTF-8 encoding is at most 512 bytes long, whatever the method. *)
Theorem validateKey_accepts_iff (method : Method) (k : JsString) :
  validateKey method k = Normal tt
  <-> ~ reservedKey k /\ utf8_byteLength k <= MAX_KEY_SIZE.
Proof.
  split.
  - apply validateKey_accepted_inv.
  - intros [Hres Hlen]. now apply validateKey_not_reserved.
Qed.

(** A code unit takes one to three bytes, a surrogate pair four. *)
Lemma utf8_byteLength_bounds (s : JsString) :
  Z.of_nat (length s) <= utf8_byteLength s <= 3 * Z.of_nat (length s).
Proof.
  remember (length s) as n eqn:Hn.
  revert s Hn. induction n as [n IH] using lt_wf_ind. intros s Hn.
  destruct s as [|c rest]; [simpl in *; subst; simpl; lia|].
  assert (Hrest : Z.of_nat (length rest) <= utf8_byteLength rest
                  <= 3 * Z.of_nat (length rest))
    by (apply (IH (length rest)); simpl in Hn; [lia | reflexivity]).
  subst n. cbn [utf8_byteLength length]. rewrite Nat2Z.inj_succ.
  destruct (c <? 128)%N; [lia|].
  destruct (c <? 2048)%N; [lia|].
  destruct (isHighSurrogate c); [|lia].
  destruct rest as [|d rest']; [simpl; lia|].
  destruct (isLowSurrogate d); [|lia].
  assert (Z.of_nat (length rest') <= utf8_byteLength rest'
          <= 3 * Z.of_nat (length rest'))
    by (apply (IH (length rest')); simpl; [lia | reflexivity]).
  cbn [length]. rewrite Nat2Z.inj_succ. lia.
Qed.

Lemma utf8_byteLength_ascii (s : JsString) :
  asciiString s -> utf8_byteLength s = Z.of_nat (length s).
Proof.
  induction 1 as [|c rest Hc _ IH]; [reflexivity|].
  cbn [utf8_byteLength length]. rewrite Nat2Z.inj_succ.
  apply N.ltb_lt in Hc. rewrite Hc, IH. lia.
Qed.

(** The key limit seen from [key.length]: a key of more than 512 code
    units is always refused with the 414 error, and a key of at most 170
    code units that is not reserved is always accepted; in between it
    depends on the characters. *)
Theorem key_limit_in_code_units (method : Method) (k : JsString) :
  (512 < Z.of_nat (length k) -> validateKey method k = Throw (keyTooLong method k))
  /\ (~ reservedKey k -> Z.of_nat (length k) <= 170 ->
      validateKey method k = Normal tt).
Proof.
  pose proof (utf8_byteLength_bounds k) as Hb. split.
  - intros Hlen. apply validateKey_too_long. unfold MAX_KEY_SIZE. lia.
  - intros Hres Hlen. apply validateKey_not_reserved;
      [exact Hres | unfold MAX_KEY_SIZE; lia].
Qed.

Lemma key_limit_in_code_units_witness :
  validateKey GET (repeat 97%N 513) = Throw (keyTooLong GET (repeat 97%N 513))
  /\ validateKey PUT (repeat 0x4E2D%N 170) = Normal tt.
Proof.
  split.
  - apply (key_limit_in_code_units GET (repeat 97%N 513)).
    vm_compute. reflexivity.
  - apply (key_limit_in_code_units PUT (repeat 0x4E2D%N 170)).
    + intros [H | [H | H]]; vm_compute in H; discriminate H.
    + vm_compute. discriminate.
Defined.

(** For a key of ASCII characters the limit is 512 characters: the key is
    accepted exactly when it is not reserved and at most 512 long. *)
Theorem ascii_key_accepted_iff (method : Method) (k : JsString) :
  asciiString k ->
  (validateKey method k = Normal tt
   <-> ~ reservedKey k /\ Z.of_nat (length k) <= 512).
Proof.
  intros Hascii.
  pose proof (utf8_byteLength_ascii k Hascii) as Hlen.
  unfold MAX_KEY_SIZE in *. split.
  - intros Hok. destruct (validateKey_accepted_inv method k Hok) as [Hres Hb].
    split; [exact Hres | unfold MAX_KEY_SIZE in Hb; lia].
  - intros [Hres Hb]. apply validateKey_not_reserved;
      [exact Hres | unfold MAX_KEY_SIZE; lia].
Qed.

Lemma ascii_key_accepted_iff_witness :
  validateKey GET (js "user:42") = Normal tt
  <-> ~ reservedKey (js "user:42") /\ Z.of_nat (length (js "user:42")) <= 512.
Proof.
  apply (ascii_key_accepted_iff GET (js "user:42")).
  repeat constructor.
Defined.

(** A key that is not a string stops get, getWithMetadata (through get),
    put and delete with the [TypeError] naming the operation, before the
    key is looked at and before anything is sent. *)
Theorem non_string_key_refused (host : Host) (self : CloudflareKV.t)
    (key : JsValue) :
  typeof key <> TyString ->
  (forall o, fails_before_io (CloudflareKV.get host self key o)
               (keyNotString "get"))
  /\ (forall o, fails_before_io (CloudflareKV.getWithMetadata host self key o)
                  (keyNotString "get"))
  /\ (forall v o, fails_before_io (CloudflareKV.put host self key v o)
                    (keyNotString "put"))
  /\ fails_before_io (CloudflareKV.delete host self key)
       (keyNotString "delete").
Proof.
  intros Hty.
  assert (Hget : forall o, fails_before_io (CloudflareKV.get host self key o)
                             (keyNotString "get")).
  { intros o tr. destruct key; try reflexivity. now elim Hty. }
  split; [exact Hget | split; [|split]].
  - intros o tr. unfold CloudflareKV.getWithMetadata. apply bind_throw, Hget.
  - intros v o tr. destruct key; try reflexivity. now elim Hty.
  - intros tr. destruct key; try reflexivity. now elim Hty.
Qed.

Lemma non_string_key_refused_witness :
  fails_before_io (CloudflareKV.delete Demo.host Demo.self (VNumber (num 42)))
    (keyNotString "delete").
Proof.
  apply (non_string_key_refused Demo.host Demo.self (VNumber (num 42))).
  discriminate.
Defined.

(* ===================================================================== *)
(** ** Further properties: reading *)
(* ===================================================================== *)

Lemma getValueTypes_spec (t : JsString) :
  t ∈ getValueTypes
  <-> t = js "text" \/ t = js "json" \/ t = js "arrayBuffer" \/ t = js "stream".
Proof.
  unfold getValueTypes. rewrite !elem_of_union, !elem_of_singleton. tauto.
Qed.

(** [validateGetOptions] once the cache directive is out of the way. *)
Lemma validateGetOptions_type (options : GetOptionsArg) :
  cacheTtlAccepted options ->
  validateGetOptions options =
  if bool_decide (requestedType options ∈ getValueTypes)
  then Normal (requestedType options)
  else Throw unknownResponseType.
Proof.
  intros Hc.
  assert (Hnone : validateGetOptions
                    (match options with
                     | OptionsRecord o =>
                         OptionsRecord {| type := type o; cacheTtl := None |}
                     | other => other
                     end)
                  = if bool_decide (requestedType options ∈ getValueTypes)
                    then Normal (requestedType options)
                    else Throw unknownResponseType).
  { destruct options as [|t|[ty c]]; unfold validateGetOptions; simpl;
      [| |destruct ty; simpl];
      destruct (bool_decide (_ ∈ getValueTypes)); reflexivity. }
  destruct options as [|t|[ty [c|]]]; try exact Hnone.
  unfold cacheTtlAccepted in Hc. simpl in Hc.
  rewrite (cacheTtl_check ty c Hc). exact Hnone.
Qed.

(** A type other than ['text'], ['json'], ['arrayBuffer'] and ['stream']
    stops get and getWithMetadata on a valid key with the "Unknown response
    type" [TypeError], before anything is sent. *)
Theorem unknown_type_refused (host : Host) (self : CloudflareKV.t)
    (k : JsString) (options : GetOptionsArg) :
  validateKey GET k = Normal tt ->
  cacheTtlAccepted options ->
  requestedType options ∉ getValueTypes ->
  fails_before_io (CloudflareKV.get host self (VString k) options)
    unknownResponseType
  /\ fails_before_io (CloudflareKV.getWithMetadata host self (VString k) options)
       unknownResponseType.
Proof.
  intros Hk Hc Hty.
  assert (Hget : fails_before_io (CloudflareKV.get host self (VString k) options)
                   unknownResponseType).
  { apply get_refused_options; [exact Hk|].
    rewrite (validateGetOptions_type options Hc).
    now rewrite bool_decide_eq_false_2. }
  split; [exact Hget|].
  intros tr. unfold CloudflareKV.getWithMetadata. apply bind_throw, Hget.
Qed.

Lemma unknown_type_refused_witness :
  fails_before_io
    (CloudflareKV.get Demo.host Demo.self (VString (js "k"))
       (OptionsType (js "blob")))
    unknownResponseType.
Proof.
  apply (unknown_type_refused Demo.host Demo.self (js "k")
           (OptionsType (js "blob"))).
  - reflexivity.
  - exact I.
  - vm_compute. intros H. discriminate H.
Defined.

(** For a valid key and one of the four types, a reply that is not a 404
    is decoded by its type and by nothing else of the reply: ['text'] gives
    [res.text()], ['json'] gives [res.json()], ['arrayBuffer'] gives
    [res.arrayBuffer()], ['stream'] gives [res.body]; the status (a 500 as
    well as a 200) raises no error of its own.  One request is sent. *)
Theorem get_decodes_by_type (host : Host) (self : CloudflareKV.t)
    (k : JsString) (options : GetOptionsArg) (tr : Trace) (r : Response) :
  validateKey GET k = Normal tt ->
  cacheTtlAccepted options ->
  transport host tr (valueRequest self k) = Normal r ->
  status r <> 404 ->
  (requestedType options = js "text" ->
   CloudflareKV.get host self (VString k) options tr
   = (andThen (text r) (fun s => Normal (VString s)),
      tr ++ [valueRequest self k]))
  /\ (requestedType options = js "json" ->
      CloudflareKV.get host self (VString k) options tr
      = (json r, tr ++ [valueRequest self k]))
  /\ (requestedType options = js "arrayBuffer" ->
      CloudflareKV.get host self (VString k) options tr
      = (andThen (arrayBuffer r) (fun b => Normal (VArrayBuffer b)),
         tr ++ [valueRequest self k]))
  /\ (requestedType options = js "stream" ->
      CloudflareKV.get host self (VString k) options tr
      = (Normal (body r), tr ++ [valueRequest self k])).
Proof.
  intros Hk Hc Hr Hstatus. apply Z.eqb_neq in Hstatus.
  assert (Hrun : forall ty, requestedType options = ty -> ty ∈ getValueTypes ->
            CloudflareKV.get host self (VString k) options tr
            = (CloudflareKV.decodeBody ty r, tr ++ [valueRequest self k])).
  { intros ty Hty Hin.
    rewrite (get_valid host self k options ty tr Hk).
    - now rewrite Hr; simpl andThen; rewrite Hstatus.
    - rewrite (validateGetOptions_type options Hc), Hty.
      now rewrite bool_decide_eq_true_2. }
  repeat split; intros Hty; rewrite (Hrun _ Hty); try reflexivity;
    apply getValueTypes_spec; auto.
Qed.

Lemma get_decodes_by_type_witness :
  CloudflareKV.get refusingHost Demo.self (VString (js "k"))
    (OptionsRecord {| type := Some (js "text"); cacheTtl := None |}) []
  = (andThen (text errorReply) (fun s => Normal (VString s)),
     [] ++ [valueRequest Demo.self (js "k")]).
Proof.
  destruct (get_decodes_by_type refusingHost Demo.self (js "k")
              (OptionsRecord {| type := Some (js "text"); cacheTtl := None |})
              [] errorReply eq_refl I eq_refl)
    as (Htext & _).
  - vm_compute. discriminate.
  - apply Htext. reflexivity.
Defined.

(** getWithMetadata is get followed by the metadata lookup: when get
    throws, getWithMetadata throws the same exception with the same trace;
    when get returns a value, a getWithMetadata that returns carries that
    very value and has sent at most the metadata request after it. *)
Theorem getWithMetadata_follows_get (host : Host) (self : CloudflareKV.t)
    (key : JsValue) (options : GetOptionsArg) (tr : Trace) :
  (forall e tr',
     CloudflareKV.get host self key options tr = (Throw e, tr') ->
     CloudflareKV.getWithMetadata host self key options tr = (Throw e, tr'))
  /\ (forall v tr' m tr'',
        CloudflareKV.get host self key options tr = (Normal v, tr') ->
        CloudflareKV.getWithMetadata host self key options tr = (Normal m, tr'') ->
        result_value m = v
        /\ (tr'' = tr'
            \/ tr'' = tr' ++ [CloudflareKV.keyRequest GET self "/metadata/" key])).
Proof.
  split.
  - intros e tr' Hget. unfold CloudflareKV.getWithMetadata.
    now apply bind_throw.
  - intros v tr' m tr'' Hget. unfold CloudflareKV.getWithMetadata.
    rewrite (bind_normal _ _ _ _ _ Hget).
    destruct (is_null v).
    + intros [= <- <-]. split; [reflexivity | now left].
    + rewrite bind_fetch.
      destruct (transport host tr' _) as [r2|e]; [|discriminate].
      rewrite bind_lift. destruct (json r2) as [parsed|e]; [|discriminate].
      rewrite bind_lift.
      destruct (get_prop parsed "result") as [md|e]; [|discriminate].
      intros [= <- <-]. split; [reflexivity | now right].
Qed.

(* ===================================================================== *)
(** ** Further properties: writing and deleting *)
(* ===================================================================== *)

(** delete on a valid key sends one DELETE request to [/values/{key}] and
    resolves whatever the reply is: its status and body are never read, so
    a key that did not exist is not told apart from a removed one.  Only a
    failure of the transport itself is passed on. *)
Theorem delete_ignores_reply (host : Host) (self : CloudflareKV.t)
    (k : JsString) (tr : Trace) :
  validateKey DELETE k = Normal tt ->
  (forall r, transport host tr (deleteRequest self k) = Normal r ->
             CloudflareKV.delete host self (VString k) tr
             = (Normal tt, tr ++ [deleteRequest self k]))
  /\ (forall e, transport host tr (deleteRequest self k) = Throw e ->
                CloudflareKV.delete host self (VString k) tr
                = (Throw e, tr ++ [deleteRequest self k])).
Proof.
  intros Hk. unfold CloudflareKV.delete. rewrite bind_lift, Hk, bind_fetch.
  fold (deleteRequest self k).
  split; intros x Hx; now rewrite Hx.
Qed.

Lemma delete_ignores_reply_witness :
  CloudflareKV.delete refusingHost Demo.self (VString (js "missing")) []
  = (Normal tt, [] ++ [deleteRequest Demo.self (js "missing")]).
Proof.
  destruct (delete_ignores_reply refusingHost Demo.self (js "missing") [] eq_refl)
    as [Hok _].
  apply (Hok errorReply). reflexivity.
Defined.

(** put without options on a valid key: a string of at most 26,214,400
    code units is sent as the one-element batch with this key, this value
    and no expiration, and the call resolves whatever the reply is (no
    status is read); a longer string fails with the 413 error before
    anything is sent. *)
Theorem put_plain_string (host : Host) (self : CloudflareKV.t)
    (k s : JsString) (tr : Trace) :
  validateKey PUT k = Normal tt ->
  (Z.of_nat (length s) <= MAX_VALUE_SIZE ->
   forall body_ r,
     CloudflareKV.stringifyBody host (plainBatch k s VUndefined) = Normal body_ ->
     transport host tr (CloudflareKV.bulkRequest self body_) = Normal r ->
     CloudflareKV.put host self (VString k) (VString s) None tr
     = (Normal tt, tr ++ [CloudflareKV.bulkRequest self body_]))
  /\ (MAX_VALUE_SIZE < Z.of_nat (length s) ->
      fails_before_io (CloudflareKV.put host self (VString k) (VString s) None)
        (valueTooLarge (Z.of_nat (length s)))).
Proof.
  intros Hk. split.
  - intros Hlen body_ r Hb Hr.
    rewrite (put_valid host self k (VString s) None tr (Some s) None body_);
      [unfold putSent; now rewrite Hr | exact Hk | reflexivity | reflexivity
       | | exact Hb].
    apply (validateSizes_within host s []); [exact Hlen | now right].
  - intros Hlen.
    apply (put_refused_size host self k (VString s) None (Some s) None);
      [exact Hk | reflexivity | reflexivity |].
    apply validateSizes_value_too_long, Hlen.
Qed.

Lemma put_plain_string_witness :
  CloudflareKV.put refusingHost Demo.self (VString (js "k")) (VString (js "v"))
    None []
  = (Normal tt, [] ++ [CloudflareKV.bulkRequest Demo.self (Some (js "[{}]"))]).
Proof.
  destruct (put_plain_string refusingHost Demo.self (js "k") (js "v") [] eq_refl)
    as [Hsend _].
  apply (Hsend ltac:(vm_compute; discriminate) (Some (js "[{}]")) errorReply);
    reflexivity.
Defined.

(** What the expiration block does for an integer absolute expiration
    when no TTL takes over: out of the signed 32-bit range, not after the
    current second, less than 60 seconds ahead, or accepted as it is.
    Unlike a TTL, an expiration of 0 is refused. *)
Theorem validateExpiration_absolute (host : Host) (options : KVPutOptions)
    (e : Z) :
  optnum_truthy (normaliseInt (expirationTtl options)) = false ->
  expiration options = VNumber (num e) ->
  CloudflareKV.validateExpiration host options =
  if (e <? MIN_EXPIRATION) || (e >? MAX_EXPIRATION)
  then Throw CloudflareKV.outOfRange
  else if e <=? unixSeconds host
       then Throw (expirationNotFuture (VNumber (num e)))
  else if e <? unixSeconds host + 60
       then Throw (expirationTooSoon (VNumber (num e)))
  else Normal (Some (num e)).
Proof.
  intros Httl Hraw. unfold CloudflareKV.validateExpiration.
  assert (Hn : normaliseInt (VNumber (num e)) = Some (num e))
    by (unfold normaliseInt; now rewrite Math_round_int).
  rewrite Httl, Hraw, Hn.
  unfold num_gt. rewrite now_seconds, num_add_int, !num_lt_int, num_le_int.
  rewrite (Z.gtb_ltb e MAX_EXPIRATION).
  destruct (e <? MIN_EXPIRATION); [reflexivity|].
  destruct (MAX_EXPIRATION <? e); [reflexivity|].
  simpl orb. cbv beta iota delta [when andThen Number_isNaN num].
  simpl orb.
  destruct (e <=? unixSeconds host); [reflexivity|].
  change MIN_CACHE_TTL with 60.
  destruct (e <? unixSeconds host + 60); reflexivity.
Qed.

Lemma validateExpiration_absolute_witness :
  CloudflareKV.validateExpiration Demo.host
    {| expiration := VNumber (num 1700000060); expirationTtl := VUndefined;
       metadata := VUndefined |}
  = Normal (Some (num 1700000060))
  /\ CloudflareKV.validateExpiration Demo.host
       {| expiration := VNumber (num 0); expirationTtl := VUndefined;
          metadata := VUndefined |}
     = Throw (expirationNotFuture (VNumber (num 0))).
Proof.
  split.
  - rewrite (validateExpiration_absolute Demo.host _ 1700000060);
      reflexivity.
  - rewrite (validateExpiration_absolute Demo.host _ 0); reflexivity.
Defined.

(** An expiration that normalises to [NaN] (a string that does not start
    with a number) is refused with the 400 error when no TTL takes over. *)
Theorem expiration_not_a_number_refused (host : Host) (self : CloudflareKV.t)
    (k : JsString) (value : JsValue) (stored : option JsString)
    (options : KVPutOptions) :
  validateKey PUT k = Normal tt ->
  CloudflareKV.storedValue host value = Normal stored ->
  optnum_truthy (normaliseInt (expirationTtl options)) = false ->
  normaliseInt (expiration options) = Some NaN ->
  fails_before_io (CloudflareKV.put host self (VString k) value (Some options))
    (expirationNotFuture (expiration options)).
Proof.
  intros Hk Hv Httl Hnan.
  apply (put_refused_expiration host self k value (Some options) stored);
    [exact Hk | exact Hv |].
  change (putOptions (Some options)) with options.
  unfold CloudflareKV.validateExpiration.
  now rewrite Httl, Hnan.
Qed.

Lemma expiration_not_a_number_refused_witness :
  fails_before_io
    (CloudflareKV.put Demo.host Demo.self (VString (js "k")) (VString (js "v"))
       (Some {| expiration := VString (js "tomorrow");
                expirationTtl := VUndefined; metadata := VUndefined |}))
    (expirationNotFuture (VString (js "tomorrow"))).
Proof.
  apply (expiration_not_a_number_refused Demo.host Demo.self (js "k")
           (VString (js "v")) (Some (js "v"))
           {| expiration := VString (js "tomorrow");
              expirationTtl := VUndefined; metadata := VUndefined |});
    reflexivity.
Defined.

(** A TTL that is taken (a number other than 0 and [NaN] after
    normalisation) makes put ignore the absolute expiration altogether:
    the call is the call without it, even when the expiration given is
    invalid. *)
Theorem ttl_overrides_expiration (host : Host) (self : CloudflareKV.t)
    (key value : JsValue) (options : KVPutOptions) (tr : Trace) :
  optnum_truthy (normaliseInt (expirationTtl options)) = true ->
  CloudflareKV.put host self key value (Some options) tr
  = CloudflareKV.put host self key value (Some (withoutExpiration options)) tr.
Proof.
  intros Httl.
  assert (He : CloudflareKV.validateExpiration host options
               = CloudflareKV.validateExpiration host (withoutExpiration options)).
  { unfold CloudflareKV.validateExpiration, withoutExpiration. simpl.
    now rewrite Httl. }
  unfold CloudflareKV.put.
  change (default _ (Some options)) with options.
  change (default _ (Some (withoutExpiration options)))
    with (withoutExpiration options).
  rewrite He. reflexivity.
Qed.

Lemma ttl_overrides_expiration_witness :
  CloudflareKV.put Demo.host Demo.self (VString (js "k")) (VString (js "v"))
    (Some {| expiration := VNumber (num 1); expirationTtl := VNumber (num 3600);
             metadata := VUndefined |}) []
  = CloudflareKV.put Demo.host Demo.self (VString (js "k")) (VString (js "v"))
      (Some (withoutExpiration
               {| expiration := VNumber (num 1);
                  expirationTtl := VNumber (num 3600);
                  metadata := VUndefined |})) [].
Proof.
  apply (ttl_overrides_expiration Demo.host Demo.self (VString (js "k"))
           (VString (js "v"))
           {| expiration := VNumber (num 1); expirationTtl := VNumber (num 3600);
              metadata := VUndefined |} []).
  reflexivity.
Defined.

(* ===================================================================== *)
(** ** Further properties: numbers *)
(* ===================================================================== *)

(** [normaliseInt] on a finite number gives the integer nearest to it,
    halves going up: the [z] with [z <= q + 1/2 < z + 1]. *)
Theorem normaliseInt_nearest (q : Q) :
  exists z : Z,
    normaliseInt (VNumber (Finite q)) = Some (num z)
    /\ (inject_Z z <= q + (1 # 2) < inject_Z (z + 1))%Q.
Proof.
  exists (Qfloor (q + (1 # 2))). split; [reflexivity|].
  split; [apply Qfloor_le | apply Qlt_floor].
Qed.

Lemma uintValue_of_uint_acc (d : Decimal.uint) (p : positive) :
  Z.pos (Pos.of_uint_acc d p) = uintValue d (Z.pos p).
Proof.
  revert p. induction d; intros p; simpl; [reflexivity | rewrite IHd; f_equal; lia ..].
Qed.

Lemma uintValue_of_uint (d : Decimal.uint) : Z.of_uint d = uintValue d 0.
Proof.
  unfold Z.of_uint.
  induction d; simpl; try reflexivity; try exact IHd;
    apply uintValue_of_uint_acc.
Qed.

Lemma digitsPrefix_stops (rest : JsString) (acc : option Z) :
  noDigitNext rest -> digitsPrefix rest acc = acc.
Proof. destruct rest as [|c r]; simpl; [reflexivity | now intros ->]. Qed.

Lemma js_cons (c : ascii) (s : string) : js (String c s) = N_of_ascii c :: js s.
Proof. reflexivity. Qed.

Lemma digitsPrefix_digit (c : N) (v : Z) (l : JsString) (acc : Z) :
  digitValue c = Some v ->
  digitsPrefix (c :: l) (Some acc) = digitsPrefix l (Some (10 * acc + v)).
Proof. intros H. simpl. now rewrite H. Qed.

Lemma digitsPrefix_digits (d : Decimal.uint) (rest : JsString) (acc : Z) :
  noDigitNext rest ->
  digitsPrefix (js (NilEmpty.string_of_uint d) ++ rest) (Some acc)
  = Some (uintValue d acc).
Proof.
  intros Hrest. revert acc.
  induction d; intros acc;
    [apply digitsPrefix_stops, Hrest
    | cbn [NilEmpty.string_of_uint uintValue]; rewrite js_cons;
      cbn [app]; erewrite digitsPrefix_digit by reflexivity;
      rewrite IHd; do 2 f_equal;
      set (v := Z.of_N _ - 48); vm_compute in v; subst v; lia ..].
Qed.

Lemma toDouble_exact (z : Z) : Z.abs z <= 2 ^ 53 -> toDouble z = num z.
Proof.
  intros Hz. unfold toDouble.
  destruct (Z.leb_spec (Z.abs z) (2 ^ 53)); [reflexivity | lia].
Qed.

(** Beyond 2^53 the string is read as the nearest double. *)
Example parseInt10_rounds_to_double :
  parseInt10 (js "9007199254740993") = num 9007199254740992
  /\ parseInt10 (js "9007199254740995") = num 9007199254740996
  /\ parseInt10 (js "-9007199254740993") = num (-9007199254740992).
Proof. repeat split; vm_compute; reflexivity. Qed.

Lemma parseInt10_digits (d : Decimal.uint) (rest : JsString) :
  d <> Nil -> noDigitNext rest ->
  parseInt10 (js (NilEmpty.string_of_uint d) ++ rest) = toDouble (Z.of_uint d)
  /\ parseInt10 (js (String "-" (NilEmpty.string_of_uint d)) ++ rest)
     = toDouble (- Z.of_uint d).
Proof.
  intros Hnil Hrest. rewrite uintValue_of_uint.
  destruct d; [contradiction | ..];
    cbn [NilEmpty.string_of_uint uintValue]; rewrite !js_cons; cbn [app];
    remember (js (NilEmpty.string_of_uint d) ++ rest) as l eqn:Hl;
    unfold parseInt10; simpl; subst l;
    rewrite (digitsPrefix_digits d rest _ Hrest);
    (split; [destruct (uintValue d _) | reflexivity]; reflexivity).
Qed.

Lemma parseInt10_decimal (z : Z) (rest : JsString) :
  noDigitNext rest -> Z.abs z <= 2 ^ 53 ->
  parseInt10 (decimal z ++ rest) = num z.
Proof.
  intros Hrest Hz. rewrite <- (toDouble_exact z Hz).
  unfold decimal. rewrite <- (DecimalZ.of_to z) at 2.
  destruct z as [|p|p]; cbn [Z.to_int NilEmpty.string_of_int Z.of_int].
  - apply (parseInt10_digits Decimal.zero rest); [discriminate | exact Hrest].
  - apply (parseInt10_digits (Pos.to_uint p) rest);
      [apply Unsigned.to_uint_nonnil | exact Hrest].
  - apply (parseInt10_digits (Pos.to_uint p) rest);
      [apply Unsigned.to_uint_nonnil | exact Hrest].
Qed.

(** Reading back a number written in decimal: for an integer [z] of
    magnitude at most 2^53 (where a double holds every integer),
    [parseInt(s, 10)], and so [normaliseInt] of the string, gives [z] for
    the decimal writing of [z], also when it is followed by text that does
    not start with a digit (["3600s"] reads as 3600); it is the value
    [normaliseInt] gives for the number [z] itself. *)
Theorem normaliseInt_reads_decimal (z : Z) (rest : JsString) :
  noDigitNext rest ->
  Z.abs z <= 2 ^ 53 ->
  parseInt10 (decimal z ++ rest) = num z
  /\ normaliseInt (VString (decimal z ++ rest)) = normaliseInt (VNumber (num z)).
Proof.
  intros Hrest Hz.
  pose proof (parseInt10_decimal z rest Hrest Hz) as Hparse.
  split; [exact Hparse|].
  unfold normaliseInt. now rewrite Hparse, Math_round_int.
Qed.

Lemma normaliseInt_reads_decimal_witness :
  parseInt10 (decimal 3600 ++ js "s") = num 3600
  /\ normaliseInt (VString (decimal (-15) ++ js " days"))
     = normaliseInt (VNumber (num (-15))).
Proof.
  split.
  - apply (normaliseInt_reads_decimal 3600 (js "s"));
      [reflexivity | vm_compute; discriminate].
  - apply (normaliseInt_reads_decimal (-15) (js " days"));
      [reflexivity | vm_compute; discriminate].
Defined.

(* ===================================================================== *)
(** ** Further properties: round trips *)
(* ===================================================================== *)

(** Every operation either throws before sending anything or makes its
    one round trip: get a GET of [/values/{key}], delete a DELETE of it,
    put a PUT of [/bulk], list a GET of [/keys] with its query;
    getWithMetadata makes the round trip of get and at most the GET of
    [/metadata/{key}] after it.  No request is retried and the trace
    before the call is kept. *)
Theorem one_round_trip (host : Host) (self : CloudflareKV.t) (tr : Trace) :
  (forall key o,
     stopped (CloudflareKV.get host self key o) tr
     \/ sent (CloudflareKV.get host self key o) tr
          [CloudflareKV.keyRequest GET self "/values/" key])
  /\ (forall key o,
        stopped (CloudflareKV.getWithMetadata host self key o) tr
        \/ sent (CloudflareKV.getWithMetadata host self key o) tr
             [CloudflareKV.keyRequest GET self "/values/" key]
        \/ sent (CloudflareKV.getWithMetadata host self key o) tr
             [CloudflareKV.keyRequest GET self "/values/" key;
              CloudflareKV.keyRequest GET self "/metadata/" key])
  /\ (forall key v o,
        stopped (CloudflareKV.put host self key v o) tr
        \/ exists body_,
             sent (CloudflareKV.put host self key v o) tr
               [CloudflareKV.bulkRequest self body_])
  /\ (forall key,
        stopped (CloudflareKV.delete host self key) tr
        \/ sent (CloudflareKV.delete host self key) tr
             [CloudflareKV.keyRequest DELETE self "/values/" key])
  /\ (forall o,
        stopped (CloudflareKV.list host self o) tr
        \/ sent (CloudflareKV.list host self o) tr [listRequest self o]).
Proof.
  assert (Hget : forall key o,
             stopped (CloudflareKV.get host self key o) tr
             \/ sent (CloudflareKV.get host self key o) tr
                  [CloudflareKV.keyRequest GET self "/values/" key]).
  { intros key o. unfold stopped, sent, CloudflareKV.get.
    destruct key; try (left; eexists; reflexivity).
    rewrite bind_lift.
    destruct (validateKey GET s); [|left; eexists; reflexivity].
    rewrite bind_lift.
    destruct (validateGetOptions o); [|left; eexists; reflexivity].
    right. rewrite bind_fetch.
    destruct (transport host tr _) as [res|e]; [|reflexivity].
    destruct (status res =? 404); reflexivity. }
  split; [exact Hget | split; [|split; [|split]]].
  - intros key o. unfold stopped, sent, CloudflareKV.getWithMetadata, bind.
    destruct (Hget key o) as [[e He] | Hsent].
    + left. exists e. now rewrite He.
    + unfold sent in Hsent.
      destruct (CloudflareKV.get host self key o tr) as [[v|e] tr'];
        simpl in Hsent; subst tr'; [|right; left; reflexivity].
      destruct (is_null v); [right; left; reflexivity|].
      right. right. unfold fetch, lift, ret.
      destruct (transport host _ _) as [r2|e]; [|now rewrite <- app_assoc].
      destruct (json r2) as [parsed|e]; [|now rewrite <- app_assoc].
      destruct (get_prop parsed "result"); now rewrite <- app_assoc.
  - intros key v o. unfold stopped, sent, CloudflareKV.put.
    destruct key; try (left; eexists; reflexivity).
    rewrite bind_lift.
    destruct (validateKey PUT s); [|left; eexists; reflexivity].
    rewrite bind_lift.
    destruct (CloudflareKV.storedValue host v) as [stored|e];
      [|left; eexists; reflexivity].
    rewrite bind_lift.
    destruct (CloudflareKV.validateExpiration host _) as [x|e];
      [|left; eexists; reflexivity].
    rewrite bind_lift.
    destruct (CloudflareKV.validateSizes host stored _) as [[]|e];
      [|left; eexists; reflexivity].
    rewrite bind_lift.
    destruct (CloudflareKV.stringifyBody host _) as [body_|e];
      [|left; eexists; reflexivity].
    right. exists body_. rewrite bind_fetch.
    destruct (transport host tr _); reflexivity.
  - intros key. unfold stopped, sent, CloudflareKV.delete.
    destruct key; try (left; eexists; reflexivity).
    rewrite bind_lift.
    destruct (validateKey DELETE s); [|left; eexists; reflexivity].
    right. rewrite bind_fetch.
    destruct (transport host tr _); reflexivity.
  - intros o. unfold stopped, sent, CloudflareKV.list.
    fold (listOptions o). fold (listLimit o).
    rewrite bind_lift.
    destruct (when (Number_isNaN (listLimit o) || num_lt (listLimit o) (num 1)) _);
      [|left; eexists; reflexivity].
    rewrite bind_lift.
    destruct (when (num_gt (listLimit o) (num MAX_LIST_KEYS)) _);
      [|left; eexists; reflexivity].
    right. fold (listRequest self o). rewrite bind_fetch.
    destruct (transport host tr (listRequest self o)) as [r|e]; [|reflexivity].
    rewrite bind_lift. destruct (json r) as [res|e]; [|reflexivity].
    rewrite bind_lift. destruct (get_prop res "result") as [ks|e]; [|reflexivity].
    rewrite bind_lift.
    destruct (get_prop res "result_info") as [info|e]; [|reflexivity].
    rewrite bind_lift. destruct (get_prop info "cursor") as [c|e]; [|reflexivity].
    rewrite bind_lift. destruct (get_prop ks "length"); reflexivity.
Qed.

(** list does not look at the status of the reply: a reply whose body is
    not JSON makes it throw what [json()] throws, and a JSON reply without
    [result_info] (as an error envelope is) makes it throw a [TypeError]
    for reading [cursor] of [undefined]; in both cases after its request
    has been sent. *)
Theorem list_reply_failures (host : Host) (self : CloudflareKV.t)
    (options : option KVListOptions) (tr : Trace) (r : Response) :
  acceptedLimit (listLimit options) ->
  transport host tr (listRequest self options) = Normal r ->
  (forall e, json r = Throw e ->
     CloudflareKV.list host self options tr
     = (Throw e, tr ++ [listRequest self options]))
  /\ (forall props, json r = Normal (VObject props) ->
        lookup_prop (js "result_info") props = VUndefined ->
        exists m, CloudflareKV.list host self options tr
                  = (Throw (TypeError m), tr ++ [listRequest self options])).
Proof.
  intros Hacc Hr. rewrite (list_accepted host self options tr Hacc), Hr.
  simpl andThen. split.
  - intros e ->. reflexivity.
  - intros props -> Hinfo. simpl andThen.
    unfold get_prop at 2. rewrite Hinfo. eexists. reflexivity.
Qed.

Lemma list_reply_failures_witness :
  exists m, CloudflareKV.list refusingHost Demo.self None []
            = (Throw (TypeError m), [] ++ [listRequest Demo.self None]).
Proof.
  destruct (list_reply_failures refusingHost Demo.self None [] errorReply)
    as [_ Hinfo].
  - split; reflexivity.
  - reflexivity.
  - apply (Hinfo [(js "success", VBoolean false); (js "result", VNull)]);
      reflexivity.
Defined.

(** put checks in a fixed order and stops at the first check that fails,
    sending nothing: the value, then the expiration, then the sizes, then
    the serialisation of the batch. *)
Theorem put_validation_order (host : Host) (self : CloudflareKV.t)
    (k : JsString) (value : JsValue) (options : option KVPutOptions) :
  validateKey PUT k = Normal tt ->
  (forall e, CloudflareKV.storedValue host value = Throw e ->
     fails_before_io (CloudflareKV.put host self (VString k) value options) e)
  /\ (forall stored e,
        CloudflareKV.storedValue host value = Normal stored ->
        CloudflareKV.validateExpiration host (putOptions options) = Throw e ->
        fails_before_io (CloudflareKV.put host self (VString k) value options) e)
  /\ (forall stored x e,
        CloudflareKV.storedValue host value = Normal stored ->
        CloudflareKV.validateExpiration host (putOptions options) = Normal x ->
        CloudflareKV.validateSizes host stored (putOptions options) = Throw e ->
        fails_before_io (CloudflareKV.put host self (VString k) value options) e)
  /\ (forall stored x e,
        CloudflareKV.storedValue host value = Normal stored ->
        CloudflareKV.validateExpiration host (putOptions options) = Normal x ->
        CloudflareKV.validateSizes host stored (putOptions options) = Normal tt ->
        CloudflareKV.stringifyBody host
          (CloudflareKV.bulkPayload x
             (normaliseInt (expirationTtl (putOptions options)))
             (VString k) stored (putOptions options)) = Throw e ->
        fails_before_io (CloudflareKV.put host self (VString k) value options) e).
Proof.
  intros Hk. repeat split.
  - intros e Hv tr. unfold CloudflareKV.put.
    now rewrite bind_lift, Hk, bind_lift, Hv.
  - intros stored e. now apply put_refused_expiration.
  - intros stored x e. now apply put_refused_size.
  - intros stored x e Hv He Hs Hb tr. unfold CloudflareKV.put.
    fold (putOptions options).
    now rewrite bind_lift, Hk, bind_lift, Hv, bind_lift, He, bind_lift, Hs,
      bind_lift, Hb.
Qed.

Lemma put_validation_order_witness :
  fails_before_io
    (CloudflareKV.put Demo.host Demo.self (VString (js "k")) (VNumber (num 1))
       (Some {| expiration := VUndefined; expirationTtl := VNumber (num 5);
                metadata := VUndefined |}))
    (TypeError [Lit "KV put() accepts only strings as values (ArrayBuffers, ArrayBufferViews, and ReadableStreams not support)."]).
Proof.
  destruct (put_validation_order Demo.host Demo.self (js "k") (VNumber (num 1))
              (Some {| expiration := VUndefined; expirationTtl := VNumber (num 5);
                       metadata := VUndefined |}) eq_refl) as [Hvalue _].
  apply Hvalue. reflexivity.
Defined.

(* ===================================================================== *)
(** ** Further properties: the TTL as given *)
(* ===================================================================== *)

(** [validateExpiration_ttl] for whatever normalises to the integer [t]. *)
Lemma validateExpiration_ttl_normalised (host : Host) (options : KVPutOptions)
    (t : Z) :
  normaliseInt (expirationTtl options) = Some (num t) -> t <> 0 ->
  CloudflareKV.validateExpiration host options =
  if (t <? MIN_EXPIRATION) || (t >? MAX_EXPIRATION)
  then Throw CloudflareKV.outOfRange
  else if t <=? 0 then Throw (ttlNotPositive (expirationTtl options))
  else if t <? 60 then Throw (ttlBelowFloor (expirationTtl options))
  else Normal (Some (num (unixSeconds host + t))).
Proof.
  intros Hn Hnz. unfold CloudflareKV.validateExpiration. rewrite Hn.
  unfold optnum_truthy, as_number. rewrite num_truthy_int.
  apply Z.eqb_neq in Hnz. rewrite Hnz. simpl negb. cbv iota.
  unfold num_gt. rewrite !num_lt_int, num_le_int, now_seconds, num_add_int.
  rewrite (Z.gtb_ltb t MAX_EXPIRATION).
  destruct (t <? MIN_EXPIRATION); [reflexivity|].
  destruct (MAX_EXPIRATION <? t); [reflexivity|].
  simpl orb. cbv beta iota delta [when andThen Number_isNaN num].
  simpl orb.
  destruct (t <=? 0); [reflexivity|].
  change MIN_CACHE_TTL with 60.
  destruct (t <? 60); reflexivity.
Qed.

Lemma ttl_accepted (host : Host) (options : KVPutOptions) (t : Z) :
  normaliseInt (expirationTtl options) = Some (num t) ->
  60 <= t <= MAX_EXPIRATION ->
  CloudflareKV.validateExpiration host options
  = Normal (Some (num (unixSeconds host + t))).
Proof.
  intros Hn Ht. rewrite (validateExpiration_ttl_normalised host options t Hn)
    by lia.
  unfold MIN_EXPIRATION, MAX_EXPIRATION in *.
  destruct (Z.ltb_spec t (-2147483648)); [lia|].
  destruct (Z.gtb_spec t 2147483647); [lia|].
  destruct (Z.leb_spec t 0); [lia|].
  destruct (Z.ltb_spec t 60); [lia | reflexivity].
Qed.

(** A TTL given as a string is read in base 10: the decimal writing of an
    integer from 60 to 2^31 - 1, also followed by text that does not start
    with a digit, is accepted with the expiration [now + ttl]; the writing
    of an integer from 1 to 59 is refused with the floor error, which
    quotes the string as it was given. *)
Theorem ttl_as_decimal_string (host : Host) (t : Z) (rest : JsString)
    (x meta : JsValue) :
  noDigitNext rest ->
  (60 <= t <= MAX_EXPIRATION ->
   CloudflareKV.validateExpiration host
     {| expiration := x; expirationTtl := VString (decimal t ++ rest);
        metadata := meta |}
   = Normal (Some (num (unixSeconds host + t))))
  /\ (1 <= t < 60 ->
      CloudflareKV.validateExpiration host
        {| expiration := x; expirationTtl := VString (decimal t ++ rest);
           metadata := meta |}
      = Throw (ttlBelowFloor (VString (decimal t ++ rest)))).
Proof.
  intros Hrest.
  assert (Hn : Z.abs t <= 2 ^ 53 ->
               normaliseInt (VString (decimal t ++ rest)) = Some (num t)).
  { intros Hb. unfold normaliseInt.
    now rewrite (parseInt10_decimal t rest Hrest Hb). }
  split; intros Ht;
    (assert (Hb : Z.abs t <= 2 ^ 53)
       by (unfold MAX_EXPIRATION in *;
           change (2 ^ 53) with 9007199254740992; lia));
    specialize (Hn Hb).
  - now apply ttl_accepted.
  - erewrite (validateExpiration_ttl_normalised host _ t)
      by first [exact Hn | lia].
    unfold MIN_EXPIRATION, MAX_EXPIRATION.
    destruct (Z.ltb_spec t (-2147483648)); [lia|].
    destruct (Z.gtb_spec t 2147483647); [lia|].
    destruct (Z.leb_spec t 0); [lia|].
    destruct (Z.ltb_spec t 60); [reflexivity | lia].
Qed.

Lemma ttl_as_decimal_string_witness :
  CloudflareKV.validateExpiration Demo.host
    {| expiration := VUndefined; expirationTtl := VString (decimal 3600 ++ []);
       metadata := VUndefined |}
  = Normal (Some (num (unixSeconds Demo.host + 3600)))
  /\ CloudflareKV.validateExpiration Demo.host
       {| expiration := VUndefined;
          expirationTtl := VString (decimal 30 ++ js "s");
          metadata := VUndefined |}
     = Throw (ttlBelowFloor (VString (decimal 30 ++ js "s"))).
Proof.
  split.
  - apply (ttl_as_decimal_string Demo.host 3600 [] VUndefined VUndefined).
    + exact I.
    + vm_compute. split; discriminate.
  - apply (ttl_as_decimal_string Demo.host 30 (js "s") VUndefined VUndefined).
    + reflexivity.
    + vm_compute. split; [discriminate | reflexivity].
Defined.

Lemma Qfloor_unique (q : Q) (z : Z) :
  (inject_Z z <= q < inject_Z (z + 1))%Q -> Qfloor q = z.
Proof.
  intros [Hle Hlt].
  assert (z <= Qfloor q).
  { rewrite <- (Qfloor_Z z). now apply Qfloor_resp_le. }
  assert (Qfloor q < z + 1).
  { rewrite Zlt_Qlt. eapply Qle_lt_trans; [apply Qfloor_le | exact Hlt]. }
  lia.
Qed.

(** A TTL given as a number is rounded before it is checked: a number
    whose nearest integer [t] (halves going up) is from 60 to 2^31 - 1 is
    accepted with the expiration [now + t], so 59.5 passes the floor of 60
    and 59.4 does not. *)
Theorem ttl_rounded_before_checks (host : Host) (q : Q) (t : Z)
    (x meta : JsValue) :
  (inject_Z t <= q + (1 # 2) < inject_Z (t + 1))%Q ->
  (60 <= t <= MAX_EXPIRATION ->
   CloudflareKV.validateExpiration host
     {| expiration := x; expirationTtl := VNumber (Finite q); metadata := meta |}
   = Normal (Some (num (unixSeconds host + t))))
  /\ (1 <= t < 60 ->
      CloudflareKV.validateExpiration host
        {| expiration := x; expirationTtl := VNumber (Finite q);
           metadata := meta |}
      = Throw (ttlBelowFloor (VNumber (Finite q)))).
Proof.
  intros Hq.
  assert (Hn : normaliseInt (VNumber (Finite q)) = Some (num t)).
  { unfold normaliseInt, Math_round. now rewrite (Qfloor_unique _ t Hq). }
  split; intros Ht.
  - now apply ttl_accepted.
  - erewrite (validateExpiration_ttl_normalised host _ t)
      by first [exact Hn | lia].
    unfold MIN_EXPIRATION, MAX_EXPIRATION.
    destruct (Z.ltb_spec t (-2147483648)); [lia|].
    destruct (Z.gtb_spec t 2147483647); [lia|].
    destruct (Z.leb_spec t 0); [lia|].
    destruct (Z.ltb_spec t 60); [reflexivity | lia].
Qed.

Lemma ttl_rounded_before_checks_witness :
  CloudflareKV.validateExpiration Demo.host
    {| expiration := VUndefined; expirationTtl := VNumber (Finite (119 # 2));
       metadata := VUndefined |}
  = Normal (Some (num (unixSeconds Demo.host + 60)))
  /\ CloudflareKV.validateExpiration Demo.host
       {| expiration := VUndefined; expirationTtl := VNumber (Finite (297 # 5));
          metadata := VUndefined |}
     = Throw (ttlBelowFloor (VNumber (Finite (297 # 5)))).
Proof.
  split.
  - apply (ttl_rounded_before_checks Demo.host (119 # 2) 60 VUndefined VUndefined).
    + split; vm_compute; [discriminate | reflexivity].
    + vm_compute. split; discriminate.
  - apply (ttl_rounded_before_checks Demo.host (297 # 5) 59 VUndefined VUndefined).
    + split; vm_compute; [discriminate | reflexivity].
    + vm_compute. split; [discriminate | reflexivity].
Defined.

(** Metadata that [JSON.stringify] turns into [undefined] (a function, a
    symbol) makes put throw the [TypeError] of reading [length] of
    [undefined], before anything is sent; falsy metadata is never
    serialised for the size check. *)
Theorem unserialisable_metadata_throws (host : Host) (self : CloudflareKV.t)
    (k s : JsString) (options : KVPutOptions) (x : option Number) :
  validateKey PUT k = Normal tt ->
  Z.of_nat (length s) <= MAX_VALUE_SIZE ->
  CloudflareKV.validateExpiration host options = Normal x ->
  truthy (metadata options) = true ->
  JSON_stringify host (metadata options) = SUndefined ->
  fails_before_io
    (CloudflareKV.put host self (VString k) (VString s) (Some options))
    CloudflareKV.lengthOfUndefined.
Proof.
  intros Hk Hlen He Ht Hm.
  apply (put_refused_size host self k (VString s) (Some options) (Some s) x);
    [exact Hk | reflexivity | exact He |].
  change (putOptions (Some options)) with options.
  unfold CloudflareKV.validateSizes. simpl andThen.
  destruct (Z.gtb_spec (Z.of_nat (length s)) MAX_VALUE_SIZE); [lia|].
  cbv beta iota delta [when andThen]. now rewrite Ht, Hm.
Qed.

Lemma unserialisable_metadata_throws_witness :
  fails_before_io
    (CloudflareKV.put Demo.host Demo.self (VString (js "k")) (VString (js "v"))
       (Some {| expiration := VUndefined; expirationTtl := VUndefined;
                metadata := VFunction (js "f") |}))
    CloudflareKV.lengthOfUndefined.
Proof.
  apply (unserialisable_metadata_throws Demo.host Demo.self (js "k") (js "v")
           {| expiration := VUndefined; expirationTtl := VUndefined;
              metadata := VFunction (js "f") |} None);
    try reflexivity.
  vm_compute. discriminate.
Defined.
